(** * linklog: the metadata resolver and the CRUD dispatcher

    A shallow embedding of [fetchMetadata], [handler] and [respond] of the
    link-blog Lambda function (package [main]), together with the parts of
    the Go standard library and of goquery that these functions call.

    - Go [string]s are byte strings: Rocq [string].
    - [int] and [int64] are 64-bit; values are kept in [Z] and the only
      place where the range matters ([strconv.Atoi]) clamps explicitly.
    - Go maps are [gmap]s; reading an absent key gives the zero value.
    - The database, the network, the template engine and the JSON encoder
      are collaborators outside the package: they are fields of a
      [Backend] record and every call to a stateful one is recorded, with
      its arguments and its answer, in a trace of [Event]s.
    - [log.Printf] output and the deferred [Close] calls are not modelled. *)

From Stdlib Require Import ZArith Ascii String List Lia.
From stdpp Require Import base option list gmap strings pretty.

Local Open Scope string_scope.
Local Open Scope list_scope.
Local Open Scope Z_scope.

(* ===================================================================== *)
(** ** Package [strings] *)
(* ===================================================================== *)

(** [strings.HasPrefix(s, prefix)]. *)
Definition HasPrefix (s prefix : string) : bool := String.prefix prefix s.

Definition byte (c : ascii) : N := N_of_ascii c.

(** The white space of [unicode.IsSpace] below U+0080: tab, line feed,
    vertical tab, form feed, carriage return and space. *)
Definition asciiSpace (c : ascii) : bool :=
  let n := byte c in
  ((9 <=? n) && (n <=? 13) || (n =? 32))%N.

(** U+0085 and U+00A0, as the two UTF-8 bytes [c1 c2]. *)
Definition space2 (c1 c2 : ascii) : bool :=
  ((byte c1 =? 194) && ((byte c2 =? 133) || (byte c2 =? 160)))%N.

(** U+1680, U+2000..U+200A, U+2028, U+2029, U+202F, U+205F and U+3000, as
    the three UTF-8 bytes [c1 c2 c3]. *)
Definition space3 (c1 c2 c3 : ascii) : bool :=
  let '(a, b, c) := (byte c1, byte c2, byte c3) in
  ((a =? 225) && (b =? 154) && (c =? 128)
   || (a =? 226) && (b =? 128)
      && ((128 <=? c) && (c <=? 138) || (c =? 168) || (c =? 169) || (c =? 175))
   || (a =? 226) && (b =? 129) && (c =? 159)
   || (a =? 227) && (b =? 128) && (c =? 128))%N.

(** [strings.TrimLeftFunc(s, unicode.IsSpace)] on the bytes of [s]: a byte
    sequence that is not the encoding of a white space rune stops the scan. *)
Fixpoint trimLeftSpace (s : list ascii) : list ascii :=
  match s with
  | [] => []
  | c1 :: r1 =>
      if asciiSpace c1 then trimLeftSpace r1
      else match r1 with
           | [] => s
           | c2 :: r2 =>
               if space2 c1 c2 then trimLeftSpace r2
               else match r2 with
                    | [] => s
                    | c3 :: r3 =>
                        if space3 c1 c2 c3 then trimLeftSpace r3 else s
                    end
           end
  end.

(** [strings.TrimRightFunc(s, unicode.IsSpace)], run on the reversed bytes:
    [utf8.DecodeLastRuneInString] accepts exactly the encodings that end
    the string. *)
Fixpoint trimRightSpaceRev (s : list ascii) : list ascii :=
  match s with
  | [] => []
  | c1 :: r1 =>
      if asciiSpace c1 then trimRightSpaceRev r1
      else match r1 with
           | [] => s
           | c2 :: r2 =>
               if space2 c2 c1 then trimRightSpaceRev r2
               else match r2 with
                    | [] => s
                    | c3 :: r3 =>
                        if space3 c3 c2 c1 then trimRightSpaceRev r3 else s
                    end
           end
  end.

(** [strings.TrimSpace]. *)
Definition TrimSpace (s : string) : string :=
  string_of_list_ascii
    (rev (trimRightSpaceRev (rev (trimLeftSpace (list_ascii_of_string s))))).

(* ===================================================================== *)
(** ** Package [strconv] *)
(* ===================================================================== *)

Inductive NumError := ErrSyntax | ErrRange.

Definition maxUint64 : Z := 2 ^ 64 - 1.
Definition maxInt64 : Z := 2 ^ 63 - 1.
Definition minInt64 : Z := - 2 ^ 63.

Definition isDigit (c : ascii) : bool := ((48 <=? byte c) && (byte c <=? 57))%N.
Definition digitVal (c : ascii) : Z := Z.of_N (byte c) - 48.

(** The digit loop of [strconv.ParseUint(s, 10, 64)]. *)
Fixpoint parseUint (n : Z) (s : list ascii) : Z * option NumError :=
  match s with
  | [] => (n, None)
  | c :: r =>
      if isDigit c then
        let n1 := n * 10 + digitVal c in
        if maxUint64 <? n1 then (maxUint64, Some ErrRange) else parseUint n1 r
      else (0, Some ErrSyntax)
  end.

Definition parseInt (neg : bool) (digits : list ascii) : Z * option NumError :=
  match digits with
  | [] => (0, Some ErrSyntax)
  | _ =>
      match parseUint 0 digits with
      | (_, Some ErrSyntax) => (0, Some ErrSyntax)
      | (un, _) =>
          if negb neg && (2 ^ 63 <=? un) then (maxInt64, Some ErrRange)
          else if neg && (2 ^ 63 <? un) then (minInt64, Some ErrRange)
          else (if neg then - un else un, None)
      end
  end.

(** [strconv.Atoi]: the value and the error are both returned, as in Go. *)
Definition Atoi (s : string) : Z * option NumError :=
  match list_ascii_of_string s with
  | [] => (0, Some ErrSyntax)
  | c :: r =>
      if (byte c =? 45)%N then parseInt true r
      else if (byte c =? 43)%N then parseInt false r
      else parseInt false (c :: r)
  end.

(* ===================================================================== *)
(** ** Package [net/url] *)
(* ===================================================================== *)

(** The two fields of [url.URL] that the resolver reads. *)
Module URL.
Record t := mk { Scheme : string; Host : string }.
End URL.

Inductive QueryError :=
| SemicolonError
| EscapeError (s : list ascii).

Definition ishex (c : ascii) : bool :=
  let n := byte c in
  ((48 <=? n) && (n <=? 57) || (97 <=? n) && (n <=? 102)
   || (65 <=? n) && (n <=? 70))%N.

Definition unhex (c : ascii) : N :=
  let n := byte c in
  (if (48 <=? n) && (n <=? 57) then n - 48
   else if (97 <=? n) && (n <=? 102) then n - 97 + 10
   else if (65 <=? n) && (n <=? 70) then n - 65 + 10
   else 0)%N.

(** [url.QueryUnescape]: [%XX] is decoded, [+] becomes a space, and a [%]
    that is not followed by two hexadecimal digits is an [EscapeError]
    carrying at most three bytes from that [%] on. *)
Fixpoint unescape (s : list ascii) : list ascii + QueryError :=
  match s with
  | [] => inl []
  | c :: r =>
      if (byte c =? 37)%N then
        match r with
        | a :: b :: r' =>
            if ishex a && ishex b then
              match unescape r' with
              | inl t => inl (ascii_of_N (unhex a * 16 + unhex b) :: t)
              | inr e => inr e
              end
            else inr (EscapeError (take 3 s))
        | _ => inr (EscapeError (take 3 s))
        end
      else
        match unescape r with
        | inl t => inl ((if (byte c =? 43)%N then " "%char else c) :: t)
        | inr e => inr e
        end
  end.

Definition QueryUnescape (s : list ascii) : string + QueryError :=
  match unescape s with
  | inl t => inl (string_of_list_ascii t)
  | inr e => inr e
  end.

(** [strings.Cut(s, sep)] for a one-byte separator: the text before the
    first [sep] and the text after it ([None] when there is no [sep]). *)
Fixpoint cut (sep : ascii) (s : list ascii) : list ascii * option (list ascii) :=
  match s with
  | [] => ([], None)
  | c :: r =>
      if (byte c =? byte sep)%N then ([], Some r)
      else let '(before, after) := cut sep r in (c :: before, after)
  end.

(** The loop [for query != "" { key, query, _ = strings.Cut(query, "&") ... }]
    of [parseQuery]: the successive values of [key]. Every turn consumes at
    least one byte, so [length query] turns are enough. *)
Fixpoint segmentsFrom (fuel : nat) (query : list ascii) : list (list ascii) :=
  match fuel, query with
  | O, _ | _, [] => []
  | S fuel', _ =>
      let '(key, rest) := cut "&"%char query in
      key :: segmentsFrom fuel' (default [] rest)
  end.

Definition segments (query : list ascii) : list (list ascii) :=
  segmentsFrom (length query) query.

(** [url.Values]. *)
Abbreviation Values := (gmap string (list string)).

(** [Values.Get]: the first value of the key, or the empty string. *)
Definition Get (v : Values) (key : string) : string :=
  match v !! key with
  | Some (x :: _) => x
  | _ => ""
  end.

(** One turn of the loop of [parseQuery] on the segment [key]. *)
Definition parseQueryStep (st : Values * option QueryError) (key : list ascii)
  : Values * option QueryError :=
  let '(m, err) := st in
  if existsb (fun c => (byte c =? 59)%N) key then (m, Some SemicolonError)
  else match key with
       | [] => (m, err)
       | _ =>
           let '(k, v) := cut "="%char key in
           match QueryUnescape k with
           | inr err1 => (m, if err is None then Some err1 else err)
           | inl k' =>
               match QueryUnescape (default [] v) with
               | inr err1 => (m, if err is None then Some err1 else err)
               | inl v' => (<[k' := default [] (m !! k') ++ [v']]> m, err)
               end
           end
       end.

(** [url.ParseQuery]: the map of the pairs that parsed, and the error. *)
Definition ParseQuery (query : string) : Values * option QueryError :=
  fold_left parseQueryStep (segments (list_ascii_of_string query)) (∅, None).

(* ===================================================================== *)
(** ** The parsed page: [html.Node] and the goquery calls of the resolver *)
(* ===================================================================== *)

(** A node of the tree built by [html.Parse]. Comments and doctypes carry
    no text and are matched by no selector. *)
#[warnings="-register-all"]
Inductive Node :=
| TextNode (data : string)
| CommentNode (data : string)
| ElementNode (tag : string) (attr : list (string * string)) (children : list Node).

(** The children of the document's root node. *)
Abbreviation Document := (list Node).

(** [goquery.Selection]: the matched nodes, in document order. *)
Abbreviation Selection := (list Node).

(** The selectors that [fetchMetadata] uses: a tag name, and a tag name
    with one [[key='val']] attribute test. *)
Inductive Selector :=
| ByTag (tag : string)
| ByTagAttr (tag key val : string).

Definition hasAttr (key val : string) (attr : list (string * string)) : bool :=
  existsb (fun a => String.eqb a.1 key && String.eqb a.2 val) attr.

Definition matches (sel : Selector) (n : Node) : bool :=
  match n, sel with
  | ElementNode tag _ _, ByTag t => String.eqb tag t
  | ElementNode tag attr _, ByTagAttr t key val =>
      String.eqb tag t && hasAttr key val attr
  | _, _ => false
  end.

(** [Matcher.MatchAll]: the matching nodes of the subtree, in pre-order. *)
Fixpoint MatchAll (sel : Selector) (n : Node) : list Node :=
  match n with
  | ElementNode _ _ children =>
      (if matches sel n then [n] else []) ++ flat_map (MatchAll sel) children
  | _ => []
  end.

(** [doc.Find(selector)]. *)
Definition Find (doc : Document) (sel : Selector) : Selection :=
  flat_map (MatchAll sel) doc.

(** [getNodeText]: the text nodes below a node, concatenated. *)
Fixpoint getNodeText (n : Node) : string :=
  match n with
  | TextNode data => data
  | CommentNode _ => ""
  | ElementNode _ _ children =>
      fold_right (fun c acc => getNodeText c +:+ acc) "" children
  end.

(** [Selection.Text]: the text of every node of the selection. *)
Definition Text (s : Selection) : string :=
  fold_right (fun n acc => getNodeText n +:+ acc) "" s.

Fixpoint getAttributeValue (attrName : string) (attr : list (string * string))
  : string * bool :=
  match attr with
  | [] => ("", false)
  | (k, v) :: rest =>
      if String.eqb k attrName then (v, true) else getAttributeValue attrName rest
  end.

(** [Selection.Attr]: the attribute of the FIRST node of the selection. *)
Definition Attr (s : Selection) (attrName : string) : string * bool :=
  match s with
  | ElementNode _ attr _ :: _ => getAttributeValue attrName attr
  | _ => ("", false)
  end.

(** [Selection.Each], for a closure whose only captured variable that it
    writes is of type [A]. *)
Definition Each {A} (s : Selection) (f : A -> Node -> A) (init : A) : A :=
  fold_left f s init.

(* ===================================================================== *)
(** ** Package [models] and the values of package [main] *)
(* ===================================================================== *)

(** [error] values are kept as their [Error()] text. *)
Abbreviation error := string.

(** [sql.NullString]. *)
Module NullString.
Record t := mk { String : string; Valid : bool }.
Definition zero : t := mk "" false.
End NullString.

Module Link.
Record t := mk {
  ID : Z;
  Url : string;
  Commentary : string;
  Title : NullString.t;
  ImageUrl : NullString.t
}.
Definition zero : t := mk 0 "" "" NullString.zero NullString.zero.
End Link.

Module CreateLinkParams.
Record t := mk {
  Url : string;
  Commentary : string;
  Title : NullString.t;
  ImageUrl : NullString.t
}.
End CreateLinkParams.

Module UpdateLinkParams.
Record t := mk {
  Url : string;
  Commentary : string;
  Title : NullString.t;
  ImageUrl : NullString.t;
  ID : Z
}.
End UpdateLinkParams.

(** [LinkMetadata]: metadata extracted from a webpage. *)
Module LinkMetadata.
Record t := mk { Title : string; ImageURL : string }.
Definition zero : t := mk "" "".
End LinkMetadata.

(** [events.APIGatewayProxyRequest], the fields that are read. *)
Module Request.
Record t := mk {
  HTTPMethod : string;
  Headers : gmap string string;
  QueryStringParameters : gmap string string;
  Body : string
}.
End Request.

(** [events.APIGatewayProxyResponse]; a [nil] header map is the empty map. *)
Module Response.
Record t := mk {
  StatusCode : Z;
  Headers : gmap string string;
  Body : string
}.
End Response.

(** Reading a Go [map[string]string]: the zero value for an absent key. *)
Definition index (m : gmap string string) (key : string) : string :=
  default "" (m !! key).

(** The comma-ok form of the same read. *)
Definition indexOk (m : gmap string string) (key : string) : string * bool :=
  match m !! key with
  | Some v => (v, true)
  | None => ("", false)
  end.

(** The four package-level templates. *)
Inductive Template := listTemplate | linkTemplate | editTemplate | detailTemplate.

(** The dynamic type of the [data any] argument of [respond]; [OtherData]
    stands for a value of any other type and carries its [%T] name. *)
Inductive Data :=
| Links (v : list Link.t)
| OneLink (v : Link.t)
| OtherData (typeName : string).

(* ===================================================================== *)
(** ** The collaborators and the trace of calls *)
(* ===================================================================== *)

(** What the function calls outside its package, over a world [W] that
    holds the database and the network. A Go call that returns
    [(value, error)] returns both here, since the code sometimes uses the
    value without looking at the error. *)
Record Backend (W : Type) := {
  (* database/sql *)
  sqlOpen : W -> option error * W;
  ExecDDL : W -> option error * W;
  (* models.Queries *)
  GetLink : Z -> W -> (Link.t * option error) * W;
  ListLinks : W -> (list Link.t * option error) * W;
  CreateLink : CreateLinkParams.t -> W -> (Z * option error) * W;
  UpdateLink : UpdateLinkParams.t -> W -> option error * W;
  DeleteLink : Z -> W -> option error * W;
  (* http.Client.Get (the body of the response) and goquery *)
  httpGet : string -> W -> (string + error) * W;
  NewDocumentFromReader : string -> W -> (Document + error) * W;
  (* url.Parse, Template.Execute into a fresh buffer, json.Marshal *)
  urlParse : string -> URL.t + error;
  Execute : Template -> Data -> string * option error;
  Marshal : Data -> string * option error
}.

Arguments sqlOpen {W}.
Arguments ExecDDL {W}.
Arguments GetLink {W}.
Arguments ListLinks {W}.
Arguments CreateLink {W}.
Arguments UpdateLink {W}.
Arguments DeleteLink {W}.
Arguments httpGet {W}.
Arguments NewDocumentFromReader {W}.
Arguments urlParse {W}.
Arguments Execute {W}.
Arguments Marshal {W}.

(** One call to a stateful collaborator: its arguments and its answer. *)
Inductive Event :=
| EvOpen (err : option error)
| EvExecDDL (err : option error)
| EvGetLink (id : Z) (r : Link.t * option error)
| EvListLinks (r : list Link.t * option error)
| EvCreateLink (arg : CreateLinkParams.t) (r : Z * option error)
| EvUpdateLink (arg : UpdateLinkParams.t) (r : option error)
| EvDeleteLink (id : Z) (r : option error)
| EvHttpGet (url : string) (r : string + error)
| EvNewDocument (r : Document + error).

(** A store write: [CreateLink], [UpdateLink] or [DeleteLink]. *)
Definition isWrite (e : Event) : bool :=
  match e with
  | EvCreateLink _ _ | EvUpdateLink _ _ | EvDeleteLink _ _ => true
  | _ => false
  end.

(** An outbound page fetch of the metadata resolver. *)
Definition isFetch (e : Event) : bool :=
  match e with
  | EvHttpGet _ _ => true
  | _ => false
  end.

(** Computations over the world and the trace (oldest call first). *)
Definition M (W A : Type) : Type := W * list Event -> A * (W * list Event).

Definition ret {W A} (a : A) : M W A := fun s => (a, s).

Definition bind {W A B} (m : M W A) (k : A -> M W B) : M W B :=
  fun s => let '(a, s') := m s in k a s'.

Definition call {W X} (op : W -> X * W) (ev : X -> Event) : M W X :=
  fun s => let '(x, w') := op s.1 in (x, (w', s.2 ++ [ev x])).

Notation "'let*' x ':=' m 'in' k" := (bind m (fun x => k))
  (at level 10, x pattern, m at level 100, k at level 200).

(** A run from the world [w] with an empty trace: the result, and the calls
    that were made. *)
Definition result {W A} (m : M W A) (w : W) : A := (m (w, [])).1.
Definition trace {W A} (m : M W A) (w : W) : list Event := (m (w, [])).2.2.
Definition final {W A} (m : M W A) (w : W) : W := (m (w, [])).2.1.

(* ===================================================================== *)
(** ** [fetchMetadata] *)
(* ===================================================================== *)

Definition titleSel : Selector := ByTag "title".
Definition ogTitleSel : Selector := ByTagAttr "meta" "property" "og:title".
Definition metaTitleSel : Selector := ByTagAttr "meta" "name" "title".
Definition ogImageSel : Selector := ByTagAttr "meta" "property" "og:image".
Definition twitterImageSel : Selector := ByTagAttr "meta" "name" "twitter:image".
Definition imgSel : Selector := ByTag "img".

(** The block under [// Extract title]: the value of [metadata.Title]. *)
Definition extractTitle (doc : Document) : string :=
  let title := Text (Find doc titleSel) in
  if negb (String.eqb title "") then TrimSpace title
  else
    let '(title, exists_) := Attr (Find doc ogTitleSel) "content" in
    if exists_ then TrimSpace title
    else
      let '(title, exists_) := Attr (Find doc metaTitleSel) "content" in
      if exists_ then TrimSpace title
      else "".

Section Resolver.
Context {W : Type} (B : Backend W).

(** The closure passed to [doc.Find("img").Each]: [ImageURL] is the
    captured [metadata.ImageURL], [s] the current [<img>] element. *)
Definition imgEach (urlStr : string) (ImageURL : string) (s : Node) : string :=
  if String.eqb ImageURL "" then
    let '(src, exists_) := Attr [s] "src" in
    if exists_ then
      if HasPrefix src "//" then "https:" +:+ src
      else if HasPrefix src "/" then
        match urlParse B urlStr with
        | inl u =>
            let base := URL.Scheme u +:+ "://" +:+ URL.Host u in
            base +:+ src
        | inr _ => ImageURL
        end
      else if HasPrefix src "http" then src
      else ImageURL
    else ImageURL
  else ImageURL.

(** The block under [// Extract image]: the value of [metadata.ImageURL]. *)
Definition extractImage (urlStr : string) (doc : Document) : string :=
  let '(img, exists_) := Attr (Find doc ogImageSel) "content" in
  if exists_ then img
  else
    let '(img, exists_) := Attr (Find doc twitterImageSel) "content" in
    if exists_ then img
    else Each (Find doc imgSel) (imgEach urlStr) "".

Definition fetchMetadata (urlStr : string) : M W (LinkMetadata.t * option error) :=
  let metadata := LinkMetadata.zero in
  let* resp := call (httpGet B urlStr) (EvHttpGet urlStr) in
  match resp with
  | inr err => ret (metadata, Some err)
  | inl body =>
      let* doc := call (NewDocumentFromReader B body) EvNewDocument in
      match doc with
      | inr err => ret (metadata, Some err)
      | inl doc =>
          ret (LinkMetadata.mk (extractTitle doc) (extractImage urlStr doc), None)
      end
  end.

End Resolver.

(* ===================================================================== *)
(** ** [respond] and [handler] *)
(* ===================================================================== *)

Definition htmlHeaders : gmap string string := {[ "Content-Type" := "text/html" ]}.
Definition jsonHeaders : gmap string string := {[ "Content-Type" := "application/json" ]}.

(** [events.APIGatewayProxyResponse{StatusCode: code, Body: body}]. *)
Definition plain (code : Z) (body : string) : Response.t :=
  Response.mk code ∅ body.

Section Dispatcher.
Context {W : Type} (B : Backend W).

Definition respond (req : Request.t) (data : Data) : Response.t * option error :=
  if String.eqb (index (Request.Headers req) "hx-request") "true" then
    match data with
    | Links _ =>
        match Execute B listTemplate data with
        | (_, Some err) => (plain 500 "", Some err)
        | (tpl, None) => (Response.mk 200 htmlHeaders tpl, None)
        end
    | OneLink _ =>
        if String.eqb (index (Request.QueryStringParameters req) "view") "detail"
        then
          match Execute B detailTemplate data with
          | (_, Some err) => (plain 500 "", Some err)
          | (tpl, None) => (Response.mk 200 htmlHeaders tpl, None)
          end
        else
          match Execute B linkTemplate data with
          | (_, Some err) => (plain 500 "", Some err)
          | (tpl, None) => (Response.mk 200 htmlHeaders tpl, None)
          end
    | OtherData typeName =>
        (plain 400 "",
         Some ("unsupported data type for HTML fragment generation: " +:+ typeName))
    end
  else
    match Marshal B data with
    | (_, Some err) => (plain 500 "", Some err)
    | (dataBytes, None) => (Response.mk 200 jsonHeaders dataBytes, None)
    end.

(** [case http.MethodGet]. *)
Definition caseGet (req : Request.t) : M W (Response.t * option error) :=
  if negb (String.eqb (index (Request.QueryStringParameters req) "id") "") then
    let '(linkIdStr, ok) := indexOk (Request.QueryStringParameters req) "id" in
    if negb ok then ret (plain 400 "Missing link ID", None)
    else
      let '(linkId, err) := Atoi linkIdStr in
      if err is Some _ then ret (plain 400 "Invalid link ID", None)
      else
        let* (linkObj, err) := call (GetLink B linkId) (EvGetLink linkId) in
        match err with
        | Some e => ret (plain 500 e, None)
        | None => ret (respond req (OneLink linkObj))
        end
  else
    let* (links, err) := call (ListLinks B) EvListLinks in
    match err with
    | Some e => ret (plain 500 "", Some e)
    | None => ret (respond req (Links links))
    end.

(** [case http.MethodPost]. *)
Definition casePost (req : Request.t) : M W (Response.t * option error) :=
  let '(formData, err) := ParseQuery (Request.Body req) in
  if err is Some _ then ret (plain 400 "Invalid request body", None)
  else
    let Url := Get formData "url" in
    let content := Get formData "commentary" in
    if String.eqb content "" || String.eqb Url "" then
      ret (plain 400 "Invalid request body", None)
    else
      (* Fetch metadata *)
      let* (metadata, err) := fetchMetadata B Url in
      let link :=
        match err with
        | None =>
            CreateLinkParams.mk Url content
              (NullString.mk (LinkMetadata.Title metadata)
                 (negb (String.eqb (LinkMetadata.Title metadata) "")))
              (NullString.mk (LinkMetadata.ImageURL metadata)
                 (negb (String.eqb (LinkMetadata.ImageURL metadata) "")))
        | Some _ =>
            CreateLinkParams.mk Url content NullString.zero NullString.zero
        end in
      let* (createdLinkId, err) := call (CreateLink B link) (EvCreateLink link) in
      match err with
      | Some e => ret (plain 500 e, None)
      | None =>
          let* (createdLink, _) :=
            call (GetLink B createdLinkId) (EvGetLink createdLinkId) in
          ret (respond req (OneLink createdLink))
      end.

(** [case http.MethodPut]. *)
Definition casePut (req : Request.t) : M W (Response.t * option error) :=
  let linkIdStr := index (Request.QueryStringParameters req) "id" in
  let '(formData, err) := ParseQuery (Request.Body req) in
  if err is Some _ then ret (plain 400 "Invalid request body", None)
  else if (size formData =? 0)%nat && negb (String.eqb linkIdStr "") then
    let '(linkId, _) := Atoi linkIdStr in
    let* (linkObj, _) := call (GetLink B linkId) (EvGetLink linkId) in
    match Execute B editTemplate (OneLink linkObj) with
    | (_, Some e) => ret (plain 500 e, None)
    | (tpl, None) => ret (Response.mk 200 htmlHeaders tpl, None)
    end
  else
    let '(linkId, _) := Atoi linkIdStr in
    let* (linkObj, err) := call (GetLink B linkId) (EvGetLink linkId) in
    if err is Some _ then ret (plain 400 "Invalid link ID", None)
    else
      let Url := Get formData "url" in
      let content := Get formData "commentary" in
      if String.eqb content "" || String.eqb Url "" then
        ret (plain 400 "Invalid request body", None)
      else
        (* Fetch metadata if URL changed *)
        let* link :=
          if negb (String.eqb Url (Link.Url linkObj)) then
            let* (metadata, err) := fetchMetadata B Url in
            match err with
            | None =>
                ret (UpdateLinkParams.mk Url content
                       (NullString.mk (LinkMetadata.Title metadata)
                          (negb (String.eqb (LinkMetadata.Title metadata) "")))
                       (NullString.mk (LinkMetadata.ImageURL metadata)
                          (negb (String.eqb (LinkMetadata.ImageURL metadata) "")))
                       (Link.ID linkObj))
            | Some _ =>
                ret (UpdateLinkParams.mk Url content
                       NullString.zero NullString.zero (Link.ID linkObj))
            end
          else
            (* Keep existing metadata *)
            ret (UpdateLinkParams.mk Url content
                   (Link.Title linkObj) (Link.ImageUrl linkObj) (Link.ID linkObj))
        in
        let* err := call (UpdateLink B link) (EvUpdateLink link) in
        match err with
        | Some e => ret (plain 500 e, None)
        | None =>
            let* (linkObj, err) := call (GetLink B linkId) (EvGetLink linkId) in
            match err with
            | Some e => ret (plain 500 e, None)
            | None => ret (respond req (OneLink linkObj))
            end
        end.

(** [case http.MethodDelete]. *)
Definition caseDelete (req : Request.t) : M W (Response.t * option error) :=
  let '(linkIdStr, ok) := indexOk (Request.QueryStringParameters req) "id" in
  if String.eqb linkIdStr "" then ret (plain 400 "Missing link ID", None)
  else if negb ok then ret (plain 400 "Missing link", None)
  else
    let '(linkId, err) := Atoi linkIdStr in
    if err is Some _ then ret (plain 400 "Invalid link ID", None)
    else
      let* err := call (DeleteLink B linkId) (EvDeleteLink linkId) in
      match err with
      | Some e => ret (plain 500 e, None)
      | None => ret (Response.mk 200 htmlHeaders "", None)
      end.

(** [switch req.HTTPMethod]. *)
Definition dispatch (req : Request.t) : M W (Response.t * option error) :=
  let method := Request.HTTPMethod req in
  if String.eqb method "GET" then caseGet req
  else if String.eqb method "POST" then casePost req
  else if String.eqb method "PUT" then casePut req
  else if String.eqb method "DELETE" then caseDelete req
  else ret (plain 200 "", None).

(** [handler]: the store is opened and the table created on every
    invocation, then the request is dispatched on its verb. The four
    templates are parsed from constants by [template.Must]. *)
Definition handler (req : Request.t) : M W (Response.t * option error) :=
  let* err := call (sqlOpen B) EvOpen in
  match err with
  | Some e => ret (plain 500 "", Some e)
  | None =>
      let* err := call (ExecDDL B) EvExecDDL in
      match err with
      | Some e => ret (plain 500 "", Some e)
      | None => dispatch req
      end
  end.

End Dispatcher.

(* ===================================================================== *)
(** ** A reference backend: a table in memory and a table of pages *)
(* ===================================================================== *)

(** The statements below hold for every [Backend]. This one makes them
    run: the [links] table as a list of rows with the six queries of the
    package's SQL file, a schedule of store failures, and the pages of the
    web as a table from URL to bytes and to the tree parsed from them. *)
Module Mem.

Record World := mkWorld {
  rows : list Link.t;
  nextID : Z;
  faults : list bool;
  web : list (string * (string * Document))
}.

Definition withRows (w : World) (rs : list Link.t) (next : Z) : World :=
  mkWorld rs next (faults w) (web w).

(** A store call fails when the head of the schedule says so; an
    exhausted schedule means no more failures. *)
Definition storeCall {A} (onFault : A) (op : World -> A * World) (w : World)
  : A * World :=
  match faults w with
  | true :: fs => (onFault, mkWorld (rows w) (nextID w) fs (web w))
  | false :: fs => op (mkWorld (rows w) (nextID w) fs (web w))
  | [] => op w
  end.

Definition connLost : error := "driver: bad connection".
Definition errNoRows : error := "sql: no rows in result set".

(** [SELECT ... FROM links WHERE id = ?] *)
Definition getLink (id : Z) : World -> (Link.t * option error) * World :=
  storeCall (Link.zero, Some connLost) (fun w =>
    match List.find (fun l => Link.ID l =? id) (rows w) with
    | Some l => ((l, None), w)
    | None => ((Link.zero, Some errNoRows), w)
    end).

Fixpoint insertDesc (l : Link.t) (sorted : list Link.t) : list Link.t :=
  match sorted with
  | [] => [l]
  | x :: rest =>
      if Link.ID x <=? Link.ID l then l :: sorted else x :: insertDesc l rest
  end.

(** [SELECT ... FROM links ORDER BY id DESC] *)
Definition listLinks : World -> (list Link.t * option error) * World :=
  storeCall ([], Some connLost) (fun w =>
    ((fold_right insertDesc [] (rows w), None), w)).

(** [INSERT INTO links (url, commentary, title, image_url) VALUES (...)],
    answering the identifier of the new row. *)
Definition createLink (p : CreateLinkParams.t) : World -> (Z * option error) * World :=
  storeCall (0, Some connLost) (fun w =>
    let id := nextID w in
    let row := Link.mk id (CreateLinkParams.Url p) (CreateLinkParams.Commentary p)
                 (CreateLinkParams.Title p) (CreateLinkParams.ImageUrl p) in
    ((id, None), withRows w (rows w ++ [row]) (id + 1))).

(** [UPDATE links SET url = ?, commentary = ?, title = ?, image_url = ?
    WHERE id = ?] *)
Definition updateLink (p : UpdateLinkParams.t) : World -> option error * World :=
  storeCall (Some connLost) (fun w =>
    let upd (l : Link.t) :=
      if Link.ID l =? UpdateLinkParams.ID p then
        Link.mk (Link.ID l) (UpdateLinkParams.Url p) (UpdateLinkParams.Commentary p)
          (UpdateLinkParams.Title p) (UpdateLinkParams.ImageUrl p)
      else l in
    (None, withRows w (map upd (rows w)) (nextID w))).

(** [DELETE FROM links WHERE id = ?] *)
Definition deleteLink (id : Z) : World -> option error * World :=
  storeCall (Some connLost) (fun w =>
    (None, withRows w (List.filter (fun l => negb (Link.ID l =? id)) (rows w)) (nextID w))).

Definition page (w : World) (url : string) : option (string * Document) :=
  snd <$> List.find (fun e => String.eqb e.1 url) (web w).

Definition get (url : string) (w : World) : (string + error) * World :=
  match page w url with
  | Some (body, _) => (inl body, w)
  | None => (inr "dial tcp: no such host", w)
  end.

Definition newDocumentFromReader (body : string) (w : World)
  : (Document + error) * World :=
  match List.find (fun e => String.eqb e.2.1 body) (web w) with
  | Some (_, (_, doc)) => (inl doc, w)
  | None => (inl [], w)
  end.

(** [url.Parse] on absolute URLs of the form [scheme://host/...]; any
    other string is read as a relative reference, without scheme or host. *)
Definition parse (s : string) : URL.t + error :=
  match String.index 0 "://" s with
  | Some i =>
      let rest := String.substring (i + 3) (String.length s - (i + 3)) s in
      let host :=
        match String.index 0 "/" rest with
        | Some j => String.substring 0 j rest
        | None => rest
        end in
      inl (URL.mk (String.substring 0 i s) host)
  | None => inl (URL.mk "" "")
  end.

Definition showNull (n : NullString.t) : string :=
  if NullString.Valid n then NullString.String n else "-".

Definition showLink (l : Link.t) : string :=
  "[" +:+ pretty (Link.ID l) +:+ "|" +:+ Link.Url l +:+ "|" +:+ Link.Commentary l
  +:+ "|" +:+ showNull (Link.Title l) +:+ "|" +:+ showNull (Link.ImageUrl l) +:+ "]".

Definition showData (d : Data) : string :=
  match d with
  | Links v => String.concat "" (map showLink v)
  | OneLink l => showLink l
  | OtherData ty => ty
  end.

Definition templateName (t : Template) : string :=
  match t with
  | listTemplate => "list"
  | linkTemplate => "link"
  | editTemplate => "edit"
  | detailTemplate => "detail"
  end.

(** Stand-ins for the four HTML templates and for [json.Marshal]: the
    fields of the value, labelled with what rendered them. *)
Definition execute (t : Template) (d : Data) : string * option error :=
  match d with
  | OtherData ty => ("", Some ("template: cannot render " +:+ ty))
  | _ => ("<" +:+ templateName t +:+ ">" +:+ showData d, None)
  end.

Definition marshal (d : Data) : string * option error :=
  ("json" +:+ showData d, None).

Definition backend : Backend World := {|
  sqlOpen := fun w => (None, w);
  ExecDDL := fun w => (None, w);
  GetLink := getLink;
  ListLinks := listLinks;
  CreateLink := createLink;
  UpdateLink := updateLink;
  DeleteLink := deleteLink;
  httpGet := get;
  NewDocumentFromReader := newDocumentFromReader;
  urlParse := parse;
  Execute := execute;
  Marshal := marshal
|}.

End Mem.

(* ===================================================================== *)
(** ** The standing assumption: the store is reachable *)
(* ===================================================================== *)

Section Setup.
Context {W : Type} (B : Backend W).

(** [sql.Open] and the [CREATE TABLE IF NOT EXISTS] both succeed. *)
Definition setupOk (w : W) : Prop :=
  (sqlOpen B w).1 = None ∧ (ExecDDL B (sqlOpen B w).2).1 = None.

(** The world in which the request is then dispatched. *)
Definition afterSetup (w : W) : W := (ExecDDL B (sqlOpen B w).2).2.

End Setup.

(** No call of the trace is a store write. *)
Definition noWrite (tr : list Event) : Prop := Forall (fun e => isWrite e = false) tr.

(** No call of the trace is a page fetch. *)
Definition noFetch (tr : list Event) : Prop := Forall (fun e => isFetch e = false) tr.

(** A nullable column holds the string [s], and is present exactly when
    [s] is not empty. *)
Definition presentIffNonEmpty (n : NullString.t) (s : string) : Prop :=
  NullString.String n = s ∧ (NullString.Valid n = true ↔ s ≠ "").

(** A nullable column is not present with an empty string. *)
Definition notPresentEmpty (n : NullString.t) : Prop :=
  NullString.Valid n = true → NullString.String n ≠ "".

(** The title in the spec's wording, "first non-empty match wins": the
    trimmed [<title>] text if that is not empty, else the trimmed
    [og:title] content if that is not empty, else the trimmed [title] meta
    content if that is not empty, else nothing. *)
Definition specTitle (doc : Document) : string :=
  let t := TrimSpace (Text (Find doc titleSel)) in
  if negb (String.eqb t "") then t
  else
    let og := TrimSpace (Attr (Find doc ogTitleSel) "content").1 in
    if negb (String.eqb og "") then og
    else
      let mt := TrimSpace (Attr (Find doc metaTitleSel) "content").1 in
      if negb (String.eqb mt "") then mt else "".

(** The row of the in-memory table with a given identifier, as [GetLink]
    finds it, and its identifier, title and image URL. *)
Definition storedRow (w : Mem.World) (id : Z) : option Link.t :=
  List.find (fun l => Link.ID l =? id) (Mem.rows w).

Definition storedMetadata (w : Mem.World) (id : Z)
  : option (Z * NullString.t * NullString.t) :=
  (fun l => (Link.ID l, Link.Title l, Link.ImageUrl l)) <$> storedRow w id.

(* ===================================================================== *)
(** ** Sample pages, stores and requests *)
(* ===================================================================== *)

Module Sample.

Definition meta (key val content : string) : Node :=
  ElementNode "meta" [(key, val); ("content", content)] [].

Definition img (src : string) : Node := ElementNode "img" [("src", src)] [].

Definition html (head body : list Node) : Document :=
  [ElementNode "html" [] [ElementNode "head" [] head; ElementNode "body" [] body]].

(** [https://ex.com]: a title with blanks around it and a root-relative image. *)
Definition pageEx : Document :=
  html [ElementNode "title" [] [TextNode " Ex "]] [img "/a.png"].

(** [https://site.com/post]: no title, and one image, [/logo.png]. *)
Definition pageSite : Document := html [] [img "/logo.png"].

(** A page whose [og:title] is there but empty, and which has a [title]
    meta tag. *)
Definition pageBlankOg : Document :=
  html [meta "property" "og:title" ""; meta "name" "title" "Real title"] [].

(** A page whose [<title>] holds one space, with an [og:title]. *)
Definition pageBlankTitle : Document :=
  html [ElementNode "title" [] [TextNode " "]; meta "property" "og:title" "Og title"] [].

(** Images in several forms: no [src], a [data:] URL, a root-relative path,
    an absolute URL. *)
Definition imgsPre : list Node :=
  [ElementNode "img" [("alt", "logo")] []; img "data:image/png;base64,AAAA"].
Definition imgsPost : list Node := [img "http://cdn.example/late.png"].

Definition web : list (string * (string * Document)) :=
  [ ("https://ex.com", ("<ex>", pageEx));
    ("https://site.com/post", ("<site>", pageSite));
    ("https://blank.example/og", ("<blank-og>", pageBlankOg));
    ("https://blank.example/title", ("<blank-title>", pageBlankTitle)) ].

Definition present (s : string) : NullString.t := NullString.mk s true.

Definition link0 : Link.t :=
  Link.mk 0 "https://zero.example" "zeroth" (present "Zero") NullString.zero.
Definition link5 : Link.t :=
  Link.mk 5 "https://ex.com" "old note" (present "Ex")
    (present "https://ex.com/a.png").

(** An empty table. *)
Definition empty : Mem.World := Mem.mkWorld [] 1 [] web.

(** A table with the rows 0 and 5. *)
Definition stocked : Mem.World := Mem.mkWorld [link0; link5] 6 [] web.

(** The empty table, on a connection that is lost after the first store
    call. *)
Definition dropsSecond : Mem.World := Mem.mkWorld [] 1 [false; true] web.

(** The two-row table, on a connection that is lost at the first store
    call. *)
Definition dropsFirst : Mem.World := Mem.mkWorld [link0; link5] 6 [true] web.

Definition hx : gmap string string := {[ "hx-request" := "true" ]}.
Definition id (s : string) : gmap string string := {[ "id" := s ]}.

Definition postEx : Request.t :=
  Request.mk "POST" ∅ ∅ "url=https%3A%2F%2Fex.com&commentary=hi".
Definition postNoUrl : Request.t := Request.mk "POST" ∅ ∅ "commentary=hi".
Definition putEditForm5 : Request.t := Request.mk "PUT" hx (id "5") "".
Definition putEditFormAbc : Request.t := Request.mk "PUT" hx (id "abc") "".
Definition putSameUrl5 : Request.t :=
  Request.mk "PUT" ∅ (id "5") "url=https%3A%2F%2Fex.com&commentary=new+note".
Definition putNewUrl5 : Request.t :=
  Request.mk "PUT" ∅ (id "5") "url=https%3A%2F%2Fsite.com%2Fpost&commentary=moved".
Definition putAbc : Request.t :=
  Request.mk "PUT" ∅ (id "abc") "url=https%3A%2F%2Fzero.example&commentary=edited".
Definition putNoUrl7 : Request.t := Request.mk "PUT" ∅ (id "7") "commentary=x".
Definition deleteNoId : Request.t := Request.mk "DELETE" ∅ ∅ "".
Definition deleteAbc : Request.t := Request.mk "DELETE" ∅ (id "abc") "".
Definition delete5 : Request.t := Request.mk "DELETE" ∅ (id "5") "".
Definition getList : Request.t := Request.mk "GET" hx ∅ "".
Definition getDetail5 : Request.t :=
  Request.mk "GET" hx {[ "id" := "5"; "view" := "detail" ]} "".
Definition getCard5 : Request.t := Request.mk "GET" hx (id "5") "".
Definition getJson5 : Request.t := Request.mk "GET" ∅ (id "5") "".

End Sample.

(* ===================================================================== *)
(** ** Measures on traces *)
(* ===================================================================== *)

(** The URLs of the pages that were fetched, in order. *)
Definition fetchedUrls (tr : list Event) : list string :=
  flat_map (fun e => match e with EvHttpGet u _ => [u] | _ => [] end) tr.

(** The store writes of a trace, in order. *)
Definition writes (tr : list Event) : list Event := List.filter isWrite tr.

(** A store read: [GetLink] or [ListLinks]. *)
Definition isRead (e : Event) : bool :=
  match e with
  | EvGetLink _ _ | EvListLinks _ => true
  | _ => false
  end.

Definition reads (tr : list Event) : list Event := List.filter isRead tr.

(** A call to the database: the set-up, a read or a write. *)
Definition isStore (e : Event) : bool :=
  match e with
  | EvHttpGet _ _ | EvNewDocument _ => false
  | _ => true
  end.

(** The [<img>] element [n] yields an image URL when it is the first one
    looked at. *)
Definition constructs {W} (B : Backend W) (urlStr : string) (n : Node) : bool :=
  negb (String.eqb (imgEach B urlStr "" n) "").

(** The first byte and the last byte of [s], if any, are not white space. *)
Definition noOuterSpace (s : string) : Prop :=
  (∀ c r, list_ascii_of_string s = c :: r → asciiSpace c = false)
  ∧ (∀ c r, rev (list_ascii_of_string s) = c :: r → asciiSpace c = false).

(** Descending identifiers, as [ORDER BY id DESC] leaves them. *)
Fixpoint descending (l : list Link.t) : Prop :=
  match l with
  | [] => True
  | x :: rest => Forall (fun y => Link.ID y <= Link.ID x) rest ∧ descending rest
  end.

(* ===================================================================== *)
(** ** Backends that fail *)
(* ===================================================================== *)

(** The reference backend with a set-up that answers [open] and [ddl], a
    given [url.Parse], and given renderers. *)
Module Outage.

Definition variant (open ddl : option error) (parse : string → URL.t + error)
    (exec : Template → Data → string * option error)
    (marshal : Data → string * option error) : Backend Mem.World := {|
  sqlOpen := fun w => (open, w);
  ExecDDL := fun w => (ddl, w);
  GetLink := Mem.getLink;
  ListLinks := Mem.listLinks;
  CreateLink := Mem.createLink;
  UpdateLink := Mem.updateLink;
  DeleteLink := Mem.deleteLink;
  httpGet := Mem.get;
  NewDocumentFromReader := Mem.newDocumentFromReader;
  urlParse := parse;
  Execute := exec;
  Marshal := marshal
|}.

Definition noOpen : Backend Mem.World :=
  variant (Some "sql: unknown driver") None Mem.parse Mem.execute Mem.marshal.

Definition noDDL : Backend Mem.World :=
  variant None (Some "database is locked") Mem.parse Mem.execute Mem.marshal.

(** [url.Parse] refuses a string that starts with a colon. *)
Definition strictParse (s : string) : URL.t + error :=
  if String.prefix ":" s then inr "missing protocol scheme" else Mem.parse s.

Definition noParse : Backend Mem.World :=
  variant None None strictParse Mem.execute Mem.marshal.


End Outage.

(** More requests. *)
Module Sample2.

Definition patch5 : Request.t := Request.mk "PATCH" Sample.hx (Sample.id "5") "x=1".
Definition getLower : Request.t := Request.mk "get" ∅ ∅ "".
Definition getEmptyId : Request.t := Request.mk "GET" ∅ (Sample.id "") "".
Definition getAbc : Request.t := Request.mk "GET" ∅ (Sample.id "abc") "".
Definition get7 : Request.t := Request.mk "GET" ∅ (Sample.id "7") "".
Definition getListJson : Request.t := Request.mk "GET" ∅ ∅ "".
Definition postBadEscape : Request.t :=
  Request.mk "POST" ∅ ∅ "url=https%3A%2F%2Fex.com&commentary=50%".
Definition putBadEscape5 : Request.t :=
  Request.mk "PUT" ∅ (Sample.id "5") "url=a;b&commentary=c".
Definition postDown : Request.t :=
  Request.mk "POST" ∅ ∅ "url=https%3A%2F%2Fdown.example&commentary=hi".
Definition putDown5 : Request.t :=
  Request.mk "PUT" ∅ (Sample.id "5") "url=https%3A%2F%2Fdown.example&commentary=moved".
Definition getUpper5 : Request.t :=
  Request.mk "GET" {[ "hx-request" := "TRUE" ]} {[ "id" := "5"; "view" := "detail" ]} "".
Definition delete7 : Request.t := Request.mk "DELETE" ∅ (Sample.id "7") "".

(** A page with a root-relative [og:image], a [twitter:image] and an
    [<img>]; and one with a [twitter:image] only, blanks around it. *)
Definition pageOg : Document :=
  Sample.html
    [Sample.meta "property" "og:image" "/cover.png";
     Sample.meta "name" "twitter:image" "https://cdn.example/tw.png"]
    [Sample.img "https://cdn.example/body.png"].
Definition pageTwitter : Document :=
  Sample.html [Sample.meta "name" "twitter:image" " https://cdn.example/tw.png "]
    [Sample.img "https://cdn.example/body.png"].
Definition shop : Mem.World :=
  Mem.mkWorld [] 1 []
    [ ("https://og.example/item", ("<og>", pageOg));
      ("https://tw.example/item", ("<tw>", pageTwitter)) ].

(** A row whose identifier is the largest, stored first. *)
Definition link9 : Link.t :=
  Link.mk 9 "https://nine.example" "ninth" NullString.zero NullString.zero.
Definition unordered : Mem.World :=
  Mem.mkWorld [Sample.link5; link9; Sample.link0] 10 [] Sample.web.

End Sample2.

(* ===================================================================== *)
(** ** Nullable columns *)
(* ===================================================================== *)

Lemma notPresentEmpty_mk (s : string) :
  notPresentEmpty (NullString.mk s (negb (String.eqb s ""))).
Proof.
  unfold notPresentEmpty. simpl.
  destruct (String.eqb_spec s ""); simpl; congruence.
Qed.

Lemma notPresentEmpty_zero : notPresentEmpty NullString.zero.
Proof. unfold notPresentEmpty. simpl. discriminate. Qed.

Lemma presentIffNonEmpty_mk (s : string) :
  presentIffNonEmpty (NullString.mk s (negb (String.eqb s ""))) s.
Proof.
  split; [reflexivity|]. simpl.
  destruct (String.eqb_spec s ""); simpl; split; congruence.
Qed.

(* ===================================================================== *)
(** ** The resolver *)
(* ===================================================================== *)

Section ResolverFacts.
Context {W : Type} (B : Backend W).

(** Facts about [+] on strings and [strings.HasPrefix]. *)
Lemma append_assoc (a b c : string) : (a +:+ b) +:+ c = a +:+ (b +:+ c).
Proof.
  induction a as [|x a IH]; [reflexivity|].
  change (String x ((a +:+ b) +:+ c) = String x (a +:+ (b +:+ c))).
  now rewrite IH.
Qed.

Lemma append_nonempty_l (a b : string) : a ≠ "" → a +:+ b ≠ "".
Proof. destruct a; [congruence|discriminate]. Qed.

Lemma append_nonempty_r (a b : string) : b ≠ "" → a +:+ b ≠ "".
Proof. destruct a; simpl; [trivial|discriminate]. Qed.

Lemma HasPrefix_nonempty (s p : string) : p ≠ "" → HasPrefix s p = true → s ≠ "".
Proof. intros Hp H E. subst s. destruct p; [congruence|discriminate]. Qed.

Lemma HasPrefix_slash2 (s : string) : HasPrefix s "//" = true → HasPrefix s "/" = true.
Proof.
  unfold HasPrefix. destruct s as [|c s]; cbn [String.prefix]; [discriminate|].
  destruct (Ascii.ascii_dec "/" c); auto. intros _. now destruct s.
Qed.

(** Once [metadata.ImageURL] is set, the closure leaves it alone. *)
Lemma imgEach_keeps (urlStr acc : string) (n : Node) :
  acc ≠ "" → imgEach B urlStr acc n = acc.
Proof.
  intros H. unfold imgEach. apply String.eqb_neq in H. now rewrite H.
Qed.

Lemma Each_imgEach_keeps (urlStr acc : string) (imgs : list Node) :
  acc ≠ "" → Each imgs (imgEach B urlStr) acc = acc.
Proof.
  unfold Each. induction imgs as [|n imgs IH]; simpl; intros H; [reflexivity|].
  rewrite imgEach_keeps by assumption. now apply IH.
Qed.

(** Elements that construct nothing leave the scan where it started. *)
Lemma Each_imgEach_skips (urlStr : string) (pre rest : list Node) :
  Forall (fun n => imgEach B urlStr "" n = "") pre →
  Each (pre ++ rest) (imgEach B urlStr) "" = Each rest (imgEach B urlStr) "".
Proof.
  unfold Each. induction 1 as [|n pre Hn _ IH]; simpl; [reflexivity|].
  now rewrite Hn.
Qed.

(** An element without [src], or whose [src] starts neither with [/] nor
    with [http], constructs nothing. *)
Lemma imgEach_other_form (urlStr : string) (n : Node) :
  (∀ src, Attr [n] "src" = (src, true) →
     HasPrefix src "/" = false ∧ HasPrefix src "http" = false) →
  imgEach B urlStr "" n = "".
Proof.
  intros H. unfold imgEach. simpl String.eqb. cbv iota.
  destruct (Attr [n] "src") as [src [|]]; [|reflexivity].
  destruct (H src eq_refl) as [H1 H2].
  destruct (HasPrefix src "//") eqn:E2.
  - apply HasPrefix_slash2 in E2. congruence.
  - now rewrite H1, H2.
Qed.

(** Without [og:image] and [twitter:image] content, the image URL is the
    result of the scan of the [<img>] elements. *)
Lemma extractImage_fallback (urlStr : string) (doc : Document) :
  (Attr (Find doc ogImageSel) "content").2 = false →
  (Attr (Find doc twitterImageSel) "content").2 = false →
  extractImage B urlStr doc = Each (Find doc imgSel) (imgEach B urlStr) "".
Proof.
  unfold extractImage.
  destruct (Attr (Find doc ogImageSel) "content") as [v1 e1].
  destruct (Attr (Find doc twitterImageSel) "content") as [v2 e2].
  simpl. now intros -> ->.
Qed.

(** C6. The [<img>] fallback, scanning the elements in document order from
    an empty image URL. Let [s] be an element with a [src] attribute, after
    elements [pre] that constructed nothing. A [src] starting with [//]
    gives ["https:" + src]; one starting with [/] but not [//] gives
    scheme, ["://"] and host of the parsed page URL, then [src]; one
    starting with [http] gives [src] itself; in these three cases the
    elements [post] that follow do not matter. Any other [src] is skipped:
    the result is that of scanning [post]. *)
Theorem C6_img_fallback_resolution
    (urlStr : string) (pre post : list Node) (s : Node) (src : string) :
  Forall (fun n => imgEach B urlStr "" n = "") pre →
  Attr [s] "src" = (src, true) →
  let scan := fun imgs => Each imgs (imgEach B urlStr) "" in
  (HasPrefix src "//" = true → scan (pre ++ s :: post) = "https:" +:+ src)
  ∧ (HasPrefix src "//" = false → HasPrefix src "/" = true →
     ∀ u, urlParse B urlStr = inl u →
     scan (pre ++ s :: post) = URL.Scheme u +:+ "://" +:+ URL.Host u +:+ src)
  ∧ (HasPrefix src "/" = false → HasPrefix src "http" = true →
     scan (pre ++ s :: post) = src)
  ∧ (HasPrefix src "/" = false → HasPrefix src "http" = false →
     scan (pre ++ s :: post) = scan post).
Proof.
  intros Hpre Hsrc scan. subst scan. cbv beta.
  rewrite (Each_imgEach_skips urlStr pre (s :: post) Hpre).
  unfold Each. simpl fold_left.
  assert (Hstep : ∀ v, v ≠ "" → imgEach B urlStr "" s = v →
                       fold_left (imgEach B urlStr) post (imgEach B urlStr "" s) = v).
  { intros v Hv ->. now apply (Each_imgEach_keeps urlStr). }
  split; [|split; [|split]].
  - intros H2. apply Hstep.
    + now apply append_nonempty_l.
    + unfold imgEach. simpl String.eqb. cbv iota. now rewrite Hsrc, H2.
  - intros H2 H1 u Hu. apply Hstep.
    + do 3 apply append_nonempty_r.
      now apply (HasPrefix_nonempty src "/").
    + unfold imgEach. simpl String.eqb. cbv iota. rewrite Hsrc, H2, H1, Hu.
      now rewrite !append_assoc.
  - intros H1 Hh.
    assert (H2 : HasPrefix src "//" = false).
    { destruct (HasPrefix src "//") eqn:E; [|reflexivity].
      apply HasPrefix_slash2 in E. congruence. }
    apply Hstep.
    + now apply (HasPrefix_nonempty src "http").
    + unfold imgEach. simpl String.eqb. cbv iota. now rewrite Hsrc, H2, H1, Hh.
  - intros H1 Hh. f_equal. apply imgEach_other_form.
    intros src' Hs'. rewrite Hsrc in Hs'. injection Hs' as <-. now split.
Qed.

(** The title chain on a parsed document. *)
Lemma extractTitle_cases (doc : Document) :
  let raw := Text (Find doc titleSel) in
  let og := Attr (Find doc ogTitleSel) "content" in
  let mt := Attr (Find doc metaTitleSel) "content" in
  (raw ≠ "" → extractTitle doc = TrimSpace raw)
  ∧ (raw = "" → og.2 = true → extractTitle doc = TrimSpace og.1)
  ∧ (raw = "" → og.2 = false → mt.2 = true → extractTitle doc = TrimSpace mt.1)
  ∧ (raw = "" → og.2 = false → mt.2 = false → extractTitle doc = "").
Proof.
  intros raw og mt. unfold extractTitle. fold raw og mt.
  destruct og as [ogv oge], mt as [mtv mte]. simpl.
  destruct (String.eqb_spec raw "") as [E|E]; simpl.
  - repeat split; try congruence; intros _; intros; subst; reflexivity.
  - repeat split; congruence.
Qed.

(** C1. When the resolver returns without error, it has parsed a document
    and the title is that of the first match that is PRESENT, trimmed: the
    text of the [<title>] elements when that text, before trimming, is not
    empty; else the [content] of the first [og:title] meta element when it
    has that attribute; else the [content] of the first [title] meta
    element when it has that attribute; else nothing. A present match
    whose trimmed value is empty is the result all the same. *)
Theorem C1_title_first_present_match (urlStr : string) (w : W) (md : LinkMetadata.t) :
  result (fetchMetadata B urlStr) w = (md, None) →
  ∃ doc,
    In (EvNewDocument (inl doc)) (trace (fetchMetadata B urlStr) w)
    ∧ let raw := Text (Find doc titleSel) in
      let og := Attr (Find doc ogTitleSel) "content" in
      let mt := Attr (Find doc metaTitleSel) "content" in
      let title := LinkMetadata.Title md in
      (TrimSpace raw ≠ "" → title = TrimSpace raw)
      ∧ (raw ≠ "" → title = TrimSpace raw)
      ∧ (raw = "" → og.2 = true → title = TrimSpace og.1)
      ∧ (raw = "" → og.2 = false → mt.2 = true → title = TrimSpace mt.1)
      ∧ (raw = "" → og.2 = false → mt.2 = false → title = "").
Proof.
  unfold result, trace, fetchMetadata, bind, call, ret. simpl.
  destruct (httpGet B urlStr w) as [[body|e] wg]; simpl; [|discriminate].
  destruct (NewDocumentFromReader B body wg) as [[doc|e] wd]; simpl; [|discriminate].
  intros [= <-]. exists doc. split; [right; left; reflexivity|].
  simpl. destruct (extractTitle_cases doc) as (H1 & H2 & H3 & H4).
  repeat split; try assumption.
  intros Ht. apply H1. intros E. rewrite E in Ht. now apply Ht.
Qed.

End ResolverFacts.

(* ===================================================================== *)
(** ** The dispatcher and the renderer *)
(* ===================================================================== *)

Section DispatcherFacts.
Context {W : Type} (B : Backend W).

(** With the store reachable, [handler] is the dispatch on the verb, after
    the two set-up calls. *)
Lemma handler_setupOk (req : Request.t) (w : W) :
  setupOk B w →
  handler B req (w, []) = dispatch B req (afterSetup B w, [EvOpen None; EvExecDDL None]).
Proof.
  unfold setupOk, afterSetup, handler, bind, call, ret. simpl.
  destruct (sqlOpen B w) as [e1 w1]. simpl. intros [-> H2]. simpl.
  destruct (ExecDDL B w1) as [e2 w2]. simpl in *. subst e2. reflexivity.
Qed.

(** The empty string is not an integer. *)
Lemma Atoi_ok_nonempty (s : string) (n : Z) : Atoi s = (n, None) → s ≠ "".
Proof. intros H ->. discriminate H. Qed.

(** A syntax error comes with the value 0 (a range error with a bound). *)
Lemma parseInt_syntax_zero (neg : bool) (digits : list ascii) :
  (parseInt neg digits).2 = Some ErrSyntax → (parseInt neg digits).1 = 0.
Proof.
  unfold parseInt. destruct digits as [|c r]; [reflexivity|].
  destruct (parseUint 0 (c :: r)) as [un [[]|]]; [reflexivity| |];
    repeat match goal with
           | |- context [if ?b then _ else _] => destruct b
           end; simpl; congruence.
Qed.

(** A string that is not a decimal integer parses to 0, with an error. *)
Lemma Atoi_syntax_zero (s : string) :
  (Atoi s).2 = Some ErrSyntax → (Atoi s).1 = 0.
Proof.
  unfold Atoi. destruct (list_ascii_of_string s) as [|c r]; [reflexivity|].
  destruct (byte c =? 45)%N; [apply parseInt_syntax_zero|].
  destruct (byte c =? 43)%N; apply parseInt_syntax_zero.
Qed.

(** [respond] answers 400 only to a value that is neither a Link nor a
    list of Links. *)
Lemma respond_status (req : Request.t) (data : Data) :
  (∀ ty, data ≠ OtherData ty) →
  Response.StatusCode (respond B req data).1 = 200
  ∨ Response.StatusCode (respond B req data).1 = 500.
Proof.
  intros Hd. unfold respond.
  destruct (String.eqb _ "true").
  - destruct data as [v|v|ty]; [| |now elim (Hd ty)].
    + destruct (Execute B listTemplate (Links v)) as [tpl [e|]]; simpl; auto.
    + destruct (String.eqb _ "detail").
      * destruct (Execute B detailTemplate (OneLink v)) as [tpl [e|]]; simpl; auto.
      * destruct (Execute B linkTemplate (OneLink v)) as [tpl [e|]]; simpl; auto.
  - destruct (Marshal B data) as [bytes [e|]]; simpl; auto.
Qed.

(** Membership in an explicit trace. *)
Ltac find_in := simpl; repeat (first [left; reflexivity | right]).

(** Case analysis on membership in an explicit trace. *)
Ltac in_trace Hin :=
  simpl in Hin; repeat (destruct Hin as [Hin|Hin]);
  try discriminate Hin; try contradiction.

(** The nullable fields of the write found in an explicit trace. *)
Ltac wellformed_params :=
  let q := fresh "q" in let r := fresh "r" in let Hin := fresh "Hin" in
  intros q r Hin; in_trace Hin; injection Hin as <- <-; simpl;
  split; first [apply notPresentEmpty_mk | apply notPresentEmpty_zero].

Ltac extracted_params :=
  split;
  [ eexists _, _; find_in
  | let q := fresh "q" in let r := fresh "r" in let Hin := fresh "Hin" in
    intros q r Hin; in_trace Hin; injection Hin as <- <-; simpl;
    split; apply presentIffNonEmpty_mk ].

(** A status that is a literal, or that of [respond] on Links. *)
Ltac status_not_400 :=
  simpl;
  first
    [ discriminate
    | match goal with
      | |- context [respond B ?r ?d] =>
          let H := fresh "H" in
          assert (H : ∀ ty, d ≠ OtherData ty) by (intros ty; discriminate);
          destruct (respond_status r d H) as [-> | ->]; discriminate
      end ].

(** Case analysis on the answer of the next collaborator call. *)
Ltac step_call :=
  match goal with
  | |- context [GetLink B ?a ?v] => destruct (GetLink B a v) as [[? [?|]] ?]
  | |- context [ListLinks B ?v] => destruct (ListLinks B v) as [[? [?|]] ?]
  | |- context [CreateLink B ?a ?v] => destruct (CreateLink B a v) as [[? [?|]] ?]
  | |- context [UpdateLink B ?a ?v] => destruct (UpdateLink B a v) as [[?|] ?]
  | |- context [DeleteLink B ?a ?v] => destruct (DeleteLink B a v) as [[?|] ?]
  | |- context [httpGet B ?a ?v] => destruct (httpGet B a v) as [[?|?] ?]
  | |- context [NewDocumentFromReader B ?a ?v] =>
      destruct (NewDocumentFromReader B a v) as [[?|?] ?]
  end.

(** All the runs of the dispatcher: every call and every test. *)
Ltac split_cases :=
  repeat (simpl;
          first
            [ step_call
            | match goal with
              | |- context [if ?c then _ else _] => destruct c eqn:?
              end
            | match goal with
              | |- context [match ?x with _ => _ end] => destruct x eqn:?
              end ]).

(** The payload test that a write has passed. *)
Ltac nonempty_fields :=
  match goal with
  | E : (String.eqb ?c "" || String.eqb ?u "") = false |- _ =>
      apply orb_false_elim in E; destruct E as [?E ?E];
      split; apply String.eqb_neq; assumption
  end.

Ltac params_nonempty :=
  let q := fresh "q" in let r := fresh "r" in let Hin := fresh "Hin" in
  intros q r Hin; in_trace Hin; injection Hin as <- <-; simpl; nonempty_fields.

(** Either the trace has no write, or the status is not 400. *)
Ltac rejected_no_write :=
  let H := fresh "H" in
  intros H;
  first [ solve [unfold noWrite; simpl; repeat constructor]
        | exfalso; revert H; status_not_400 ].

(** Every write that the dispatcher issues has a url and a commentary that
    are not empty, and a request answered with 400 has written nothing. *)
Lemma dispatch_writes (req : Request.t) (w : W) :
  let run := dispatch B req (w, [EvOpen None; EvExecDDL None]) in
  (∀ q r, In (EvCreateLink q r) run.2.2 →
     CreateLinkParams.Url q ≠ "" ∧ CreateLinkParams.Commentary q ≠ "")
  ∧ (∀ q r, In (EvUpdateLink q r) run.2.2 →
     UpdateLinkParams.Url q ≠ "" ∧ UpdateLinkParams.Commentary q ≠ "")
  ∧ (Response.StatusCode run.1.1 = 400 → noWrite run.2.2).
Proof.
  unfold dispatch, caseGet, casePost, casePut, caseDelete, fetchMetadata,
    bind, call, ret, indexOk.
  split_cases;
    (split; [|split]).
  all: try params_nonempty.
  all: rejected_no_write.
Qed.

(** On create, whatever the re-read answers, error or not, the Link it
    returned goes to [respond]: a failure of the re-read is never a 500. *)
Lemma create_reread_error_dropped (req : Request.t) (w : W) :
  Request.HTTPMethod req = "POST" →
  setupOk B w →
  ∀ id l e,
    In (EvGetLink id (l, e)) (trace (handler B req) w) →
    result (handler B req) w = respond B req (OneLink l).
Proof.
  intros Hm Hs id l e. unfold result, trace.
  rewrite (handler_setupOk req w Hs). unfold dispatch. rewrite Hm. simpl.
  unfold casePost, fetchMetadata, bind, call, ret.
  split_cases; intros Hin; in_trace Hin; now injection Hin as <- <- <-.
Qed.

(** On an edit-form request, neither the parse of [id] nor the fetch can
    make the request fail: the Link that the fetch returned is rendered. *)
Lemma edit_form_errors_dropped (req : Request.t) (w : W) (formData : Values) :
  Request.HTTPMethod req = "PUT" →
  setupOk B w →
  ParseQuery (Request.Body req) = (formData, None) →
  size formData = 0%nat →
  let linkIdStr := index (Request.QueryStringParameters req) "id" in
  linkIdStr ≠ "" →
  let fetched := (GetLink B (Atoi linkIdStr).1 (afterSetup B w)).1 in
  result (handler B req) w
  = match Execute B editTemplate (OneLink fetched.1) with
    | (_, Some e) => (plain 500 e, None)
    | (tpl, None) => (Response.mk 200 htmlHeaders tpl, None)
    end.
Proof.
  intros Hm Hs Hq Hsz linkIdStr Hid fetched. subst fetched. unfold result.
  rewrite (handler_setupOk req w Hs). unfold dispatch. rewrite Hm. simpl.
  unfold casePut. fold linkIdStr. rewrite Hq, Hsz.
  apply String.eqb_neq in Hid. rewrite Hid. simpl.
  destruct (Atoi linkIdStr) as [linkId aerr]. unfold bind, call, ret. simpl.
  destruct (GetLink B linkId (afterSetup B w)) as [[linkObj e] w1]. simpl.
  now destruct (Execute B editTemplate (OneLink linkObj)) as [tpl [e'|]].
Qed.

(** C8. For every DELETE request (the store being reachable): without an
    [id] query parameter the response is 400 with body "Missing link ID";
    with an [id] that [strconv.Atoi] rejects it is 400; when the store's
    delete fails it is 500 with the error text; otherwise it is 200 with an
    empty body. The two 400 answers come before any store write. *)
Theorem C8_delete_responses (req : Request.t) (w : W) :
  Request.HTTPMethod req = "DELETE" →
  setupOk B w →
  let qs := Request.QueryStringParameters req in
  let out := result (handler B req) w in
  let tr := trace (handler B req) w in
  (qs !! "id" = None →
     out = (plain 400 "Missing link ID", None) ∧ noWrite tr)
  ∧ (∀ s, qs !! "id" = Some s → (Atoi s).2 ≠ None →
     Response.StatusCode out.1 = 400 ∧ out.2 = None ∧ noWrite tr)
  ∧ (∀ s n e, qs !! "id" = Some s → Atoi s = (n, None) →
     (DeleteLink B n (afterSetup B w)).1 = Some e →
     out = (plain 500 e, None))
  ∧ (∀ s n, qs !! "id" = Some s → Atoi s = (n, None) →
     (DeleteLink B n (afterSetup B w)).1 = None →
     out = (Response.mk 200 htmlHeaders "", None)).
Proof.
  intros Hm Hs qs out tr. subst out tr. unfold result, trace.
  rewrite (handler_setupOk req w Hs).
  unfold dispatch. rewrite Hm. simpl.
  unfold caseDelete, indexOk. fold qs.
  split; [|split; [|split]].
  - intros ->. simpl. split; [reflexivity|repeat constructor].
  - intros s Hq Ha. rewrite Hq.
    destruct (String.eqb s "") eqn:E; [simpl; repeat split; repeat constructor|].
    simpl. destruct (Atoi s) as [n [e|]]; [|now elim Ha].
    simpl. repeat split; repeat constructor.
  - intros s n e Hq Ha Hd. rewrite Hq.
    pose proof (Atoi_ok_nonempty s n Ha) as Hne.
    apply String.eqb_neq in Hne. rewrite Hne. simpl. rewrite Ha.
    unfold bind, call, ret. simpl.
    destruct (DeleteLink B n (afterSetup B w)) as [r w']. simpl in *. now subst r.
  - intros s n Hq Ha Hd. rewrite Hq.
    pose proof (Atoi_ok_nonempty s n Ha) as Hne.
    apply String.eqb_neq in Hne. rewrite Hne. simpl. rewrite Ha.
    unfold bind, call, ret. simpl.
    destruct (DeleteLink B n (afterSetup B w)) as [r w']. simpl in *. now subst r.
Qed.

(** C7. What [respond] does with the value it is handed. With the header
    [hx-request: true], a list is rendered by the list template, a single
    Link by the detail template when [view=detail] and by the single-link
    template otherwise, and any other value gives status 400 with an
    error. Without the header the value is serialized to JSON. Every
    response without error has status 200 and a [Content-Type] that
    matches its body: [text/html] for a template's output,
    [application/json] for the encoder's. *)
Theorem C7_respond_negotiation (req : Request.t) (data : Data) :
  let hx := index (Request.Headers req) "hx-request" in
  let view := index (Request.QueryStringParameters req) "view" in
  let out := respond B req data in
  (hx = "true" →
     (∀ v tpl, data = Links v → Execute B listTemplate data = (tpl, None) →
        out = (Response.mk 200 htmlHeaders tpl, None))
     ∧ (∀ v tpl, data = OneLink v → view = "detail" →
        Execute B detailTemplate data = (tpl, None) →
        out = (Response.mk 200 htmlHeaders tpl, None))
     ∧ (∀ v tpl, data = OneLink v → view ≠ "detail" →
        Execute B linkTemplate data = (tpl, None) →
        out = (Response.mk 200 htmlHeaders tpl, None))
     ∧ (∀ ty, data = OtherData ty →
        Response.StatusCode out.1 = 400 ∧ out.2 ≠ None))
  ∧ (Request.Headers req !! "hx-request" = None →
     ∀ dataBytes, Marshal B data = (dataBytes, None) →
     out = (Response.mk 200 jsonHeaders dataBytes, None))
  ∧ (∀ resp, out = (resp, None) →
     Response.StatusCode resp = 200
     ∧ ((hx = "true" ∧ Response.Headers resp = htmlHeaders
         ∧ ∃ t, Execute B t data = (Response.Body resp, None))
        ∨ (hx ≠ "true" ∧ Response.Headers resp = jsonHeaders
           ∧ Marshal B data = (Response.Body resp, None)))).
Proof.
  intros hx view out. subst out. unfold respond. fold hx view.
  split; [|split].
  - intros ->. simpl. split; [|split; [|split]].
    + intros v tpl -> ->. reflexivity.
    + intros v tpl -> -> ->. reflexivity.
    + intros v tpl -> Hv ->. apply String.eqb_neq in Hv. now rewrite Hv.
    + intros ty ->. split; [reflexivity|discriminate].
  - intros Hh dataBytes ->. subst hx. unfold index. rewrite Hh. reflexivity.
  - intros resp. destruct (String.eqb hx "true") eqn:Ehx.
    + apply String.eqb_eq in Ehx.
      destruct data as [v|v|ty].
      * destruct (Execute B listTemplate (Links v)) as [tpl [e|]] eqn:Ex;
          intros [= <-]; simpl.
        split; [reflexivity|]. left. repeat split; try assumption. now exists listTemplate.
      * destruct (String.eqb view "detail").
        -- destruct (Execute B detailTemplate (OneLink v)) as [tpl [e|]] eqn:Ex;
             intros [= <-]; simpl.
           split; [reflexivity|]. left. repeat split; try assumption.
           now exists detailTemplate.
        -- destruct (Execute B linkTemplate (OneLink v)) as [tpl [e|]] eqn:Ex;
             intros [= <-]; simpl.
           split; [reflexivity|]. left. repeat split; try assumption.
           now exists linkTemplate.
      * intros [=].
    + apply String.eqb_neq in Ehx.
      destruct (Marshal B data) as [dataBytes [e|]] eqn:Em; intros [= <-]; simpl.
      split; [reflexivity|]. right. repeat split; assumption.
Qed.

(** C3. A full update (PUT whose body has fields) that submits the stored
    url: no page is fetched, and the only [UpdateLink] that can be issued
    carries the title, the image URL and the identifier of the Link as it
    was read from the store, next to the submitted url and commentary; it is
    issued as soon as both of these are non-empty. *)
Theorem C3_update_same_url_keeps_metadata
    (req : Request.t) (w w1 : W) (formData : Values) (linkObj : Link.t) :
  Request.HTTPMethod req = "PUT" →
  setupOk B w →
  ParseQuery (Request.Body req) = (formData, None) →
  size formData ≠ 0%nat →
  let linkIdStr := index (Request.QueryStringParameters req) "id" in
  GetLink B (Atoi linkIdStr).1 (afterSetup B w) = ((linkObj, None), w1) →
  Get formData "url" = Link.Url linkObj →
  let tr := trace (handler B req) w in
  let link :=
    UpdateLinkParams.mk (Get formData "url") (Get formData "commentary")
      (Link.Title linkObj) (Link.ImageUrl linkObj) (Link.ID linkObj) in
  noFetch tr
  ∧ (∀ q r, In (EvUpdateLink q r) tr → q = link)
  ∧ (Get formData "url" ≠ "" → Get formData "commentary" ≠ "" →
     ∃ r, In (EvUpdateLink link r) tr).
Proof.
  intros Hm Hs Hq Hsz linkIdStr Hg Hu tr link. subst tr. unfold trace.
  rewrite (handler_setupOk req w Hs).
  unfold dispatch. rewrite Hm. simpl.
  unfold casePut. fold linkIdStr. rewrite Hq.
  apply Nat.eqb_neq in Hsz. rewrite Hsz. simpl.
  destruct (Atoi linkIdStr) as [linkId aerr]. simpl in Hg.
  unfold bind, call, ret. simpl. rewrite Hg. simpl.
  rewrite Hu, String.eqb_refl. simpl. rewrite <- Hu. subst link.
  destruct (String.eqb (Get formData "commentary") "") eqn:Ec;
    destruct (String.eqb (Get formData "url") "") eqn:Eu; simpl;
    try (split; [repeat constructor|split];
         [intros q r Hin; simpl in Hin; intuition discriminate
         |intros H1 H2; apply String.eqb_neq in H1, H2; congruence]).
  match goal with
  | |- context [UpdateLink B ?p ?v] => destruct (UpdateLink B p v) as [[e|] w2]
  end; simpl.
  - split; [repeat constructor|split].
    + intros q r Hin; simpl in Hin. intuition (try discriminate; congruence).
    + intros _ _. exists (Some e). simpl. tauto.
  - destruct (GetLink B linkId w2) as [[l [e|]] w3]; simpl.
    + split; [repeat constructor|split].
      * intros q r Hin; simpl in Hin. intuition (try discriminate; congruence).
      * intros _ _. exists None. simpl. tauto.
    + split; [repeat constructor|split].
      * intros q r Hin; simpl in Hin. intuition (try discriminate; congruence).
      * intros _ _. exists None. simpl. tauto.
Qed.

(** C10. On create, and on a full update that changes the url, no write
    carries a title or an image URL that is present and empty; and when the
    resolver returns without error the write is issued and carries, for
    each of the two, the extracted string with a validity flag that is set
    exactly when that string is not empty. *)
Theorem C10_metadata_present_iff_nonempty
    (req : Request.t) (w : W) (formData : Values) :
  setupOk B w →
  ParseQuery (Request.Body req) = (formData, None) →
  let Url := Get formData "url" in
  let content := Get formData "commentary" in
  Url ≠ "" → content ≠ "" →
  let tr := trace (handler B req) w in
  (Request.HTTPMethod req = "POST" →
   (∀ q r, In (EvCreateLink q r) tr →
      notPresentEmpty (CreateLinkParams.Title q)
      ∧ notPresentEmpty (CreateLinkParams.ImageUrl q))
   ∧ ∀ md, result (fetchMetadata B Url) (afterSetup B w) = (md, None) →
     (∃ q r, In (EvCreateLink q r) tr)
     ∧ ∀ q r, In (EvCreateLink q r) tr →
         presentIffNonEmpty (CreateLinkParams.Title q) (LinkMetadata.Title md)
         ∧ presentIffNonEmpty (CreateLinkParams.ImageUrl q) (LinkMetadata.ImageURL md))
  ∧ (Request.HTTPMethod req = "PUT" → size formData ≠ 0%nat →
     let linkIdStr := index (Request.QueryStringParameters req) "id" in
     ∀ linkObj w1,
       GetLink B (Atoi linkIdStr).1 (afterSetup B w) = ((linkObj, None), w1) →
       Url ≠ Link.Url linkObj →
       (∀ q r, In (EvUpdateLink q r) tr →
          notPresentEmpty (UpdateLinkParams.Title q)
          ∧ notPresentEmpty (UpdateLinkParams.ImageUrl q))
       ∧ ∀ md, result (fetchMetadata B Url) w1 = (md, None) →
         (∃ q r, In (EvUpdateLink q r) tr)
         ∧ ∀ q r, In (EvUpdateLink q r) tr →
             presentIffNonEmpty (UpdateLinkParams.Title q) (LinkMetadata.Title md)
             ∧ presentIffNonEmpty (UpdateLinkParams.ImageUrl q) (LinkMetadata.ImageURL md)).
Proof.
  intros Hs Hq Url content HU HC tr. subst tr. unfold trace.
  rewrite (handler_setupOk req w Hs). unfold dispatch.
  apply String.eqb_neq in HU, HC.
  split.
  - intros Hm. rewrite Hm. simpl.
    unfold casePost. rewrite Hq. fold Url content. rewrite HU, HC. simpl.
    unfold result, fetchMetadata, bind, call, ret. simpl.
    destruct (httpGet B Url (afterSetup B w)) as [[body|e] wg]; simpl;
      [destruct (NewDocumentFromReader B body wg) as [[doc|e] wd]; simpl|];
      match goal with
      | |- context [CreateLink B ?p ?v] =>
          destruct (CreateLink B p v) as [[id [e1|]] w2]
      end; simpl;
      try (destruct (GetLink B id w2) as [[l e2] w3]; simpl);
      (split; [wellformed_params|]); intros md [= <-]; extracted_params.
  - intros Hm Hsz linkObj w1 Hg Hne. rewrite Hm. simpl.
    unfold casePut. rewrite Hq. fold Url content.
    set (linkIdStr := index (Request.QueryStringParameters req) "id") in *.
    apply Nat.eqb_neq in Hsz. rewrite Hsz. simpl.
    destruct (Atoi linkIdStr) as [linkId aerr]. simpl in Hg.
    unfold result, fetchMetadata, bind, call, ret. simpl. rewrite Hg. simpl.
    rewrite HU, HC. simpl.
    apply String.eqb_neq in Hne. rewrite Hne. simpl.
    destruct (httpGet B Url w1) as [[body|e] wg]; simpl;
      [destruct (NewDocumentFromReader B body wg) as [[doc|e] wd]; simpl|];
      match goal with
      | |- context [UpdateLink B ?p ?v] =>
          destruct (UpdateLink B p v) as [[e1|] w2]
      end; simpl;
      try (destruct (GetLink B linkId w2) as [[l [e2|]] w3]; simpl);
      (split; [wellformed_params|]); intros md [= <-]; extracted_params.
Qed.

(** C9. A full update (PUT whose body has fields) whose [id] is not a
    decimal integer: the parse error is dropped and the Link with
    identifier 0 is fetched. If that fetch fails the answer is 400
    "Invalid link ID" and nothing is written; if it succeeds the answer is
    not that one. If it succeeds and url and commentary are not empty, the
    answer is not a 400 at all and [UpdateLink] is issued for the fetched
    Link, with the submitted url and commentary. *)
Theorem C9_put_non_integer_id_fetches_zero
    (req : Request.t) (w : W) (formData : Values) :
  Request.HTTPMethod req = "PUT" →
  setupOk B w →
  ParseQuery (Request.Body req) = (formData, None) →
  size formData ≠ 0%nat →
  (Atoi (index (Request.QueryStringParameters req) "id")).2 = Some ErrSyntax →
  let out := result (handler B req) w in
  let tr := trace (handler B req) w in
  let fetched := (GetLink B 0 (afterSetup B w)).1 in
  (∃ rest, tr = [EvOpen None; EvExecDDL None; EvGetLink 0 fetched] ++ rest)
  ∧ (fetched.2 ≠ None →
     out = (plain 400 "Invalid link ID", None) ∧ noWrite tr)
  ∧ (fetched.2 = None → out ≠ (plain 400 "Invalid link ID", None))
  ∧ (fetched.2 = None →
     Get formData "url" ≠ "" → Get formData "commentary" ≠ "" →
     Response.StatusCode out.1 ≠ 400
     ∧ ∃ q r, In (EvUpdateLink q r) tr
              ∧ UpdateLinkParams.ID q = Link.ID fetched.1
              ∧ UpdateLinkParams.Url q = Get formData "url"
              ∧ UpdateLinkParams.Commentary q = Get formData "commentary").
Proof.
  intros Hm Hs Hq Hsz Ha out tr fetched. subst out tr fetched.
  unfold result, trace.
  rewrite (handler_setupOk req w Hs). unfold dispatch. rewrite Hm. simpl.
  unfold casePut. rewrite Hq.
  apply Nat.eqb_neq in Hsz. rewrite Hsz. simpl.
  pose proof (Atoi_syntax_zero _ Ha) as Hz.
  destruct (Atoi (index (Request.QueryStringParameters req) "id")) as [linkId aerr].
  simpl in Hz. subst linkId.
  unfold fetchMetadata, bind, call, ret. simpl.
  destruct (GetLink B 0 (afterSetup B w)) as [[linkObj [e|]] w1]; simpl.
  - split; [eauto|]. split; [|split; congruence].
    intros _. split; [reflexivity|repeat constructor].
  - destruct (String.eqb_spec (Get formData "commentary") "") as [Ec|Ec];
      destruct (String.eqb_spec (Get formData "url") "") as [Eu|Eu]; simpl;
      try (split; [eauto|]; split; [congruence|]; split;
           [intros _; discriminate|intros _ H1 H2; congruence]).
    destruct (negb (String.eqb (Get formData "url") (Link.Url linkObj))); simpl;
      [destruct (httpGet B (Get formData "url") w1) as [[body|e] wg]; simpl;
       [destruct (NewDocumentFromReader B body wg) as [[doc|e] wd]; simpl|]|];
      match goal with
      | |- context [UpdateLink B ?p ?v] =>
          destruct (UpdateLink B p v) as [[e1|] w2]
      end; simpl;
      try (destruct (GetLink B 0 w2) as [[l [e2|]] w3]; simpl);
      (split; [eauto|]; split; [congruence|]; split;
       [ intros _ E;
         apply (f_equal (fun o : Response.t * option error =>
                           Response.StatusCode o.1)) in E;
         revert E; status_not_400
       | intros _ _ _;
         split; [status_not_400 | eexists _, _; split; [find_in|simpl; auto] ] ]).
Qed.

(** C5. A create, or a full update (PUT whose body has fields), whose url
    or commentary is empty or absent is answered with 400 and writes
    nothing: "Invalid request body", except that a full update whose body
    parses and whose fetch of the current Link fails is answered "Invalid
    link ID" before the payload is looked at. Every [CreateLink] and
    [UpdateLink] that is issued, for any request, carries a url and a
    commentary that are not empty, and no request answered with 400 has
    written to the store. *)
Theorem C5_incomplete_payload_rejected_before_write (req : Request.t) (w : W) :
  setupOk B w →
  let out := result (handler B req) w in
  let tr := trace (handler B req) w in
  (∀ formData perr,
     ParseQuery (Request.Body req) = (formData, perr) →
     Get formData "url" = "" ∨ Get formData "commentary" = "" →
     (Request.HTTPMethod req = "POST" →
        out = (plain 400 "Invalid request body", None) ∧ noWrite tr)
     ∧ (Request.HTTPMethod req = "PUT" → size formData ≠ 0%nat →
        let linkIdStr := index (Request.QueryStringParameters req) "id" in
        let fetched := (GetLink B (Atoi linkIdStr).1 (afterSetup B w)).1 in
        noWrite tr
        ∧ (perr = None → fetched.2 ≠ None →
           out = (plain 400 "Invalid link ID", None))
        ∧ (perr ≠ None ∨ fetched.2 = None →
           out = (plain 400 "Invalid request body", None))))
  ∧ (∀ q r, In (EvCreateLink q r) tr →
     CreateLinkParams.Url q ≠ "" ∧ CreateLinkParams.Commentary q ≠ "")
  ∧ (∀ q r, In (EvUpdateLink q r) tr →
     UpdateLinkParams.Url q ≠ "" ∧ UpdateLinkParams.Commentary q ≠ "")
  ∧ (Response.StatusCode out.1 = 400 → noWrite tr).
Proof.
  intros Hs out tr. subst out tr. unfold result, trace.
  rewrite (handler_setupOk req w Hs).
  split; [|apply dispatch_writes].
  intros formData perr Hq Hempty.
  assert (Hor : String.eqb (Get formData "commentary") ""
                || String.eqb (Get formData "url") "" = true).
  { destruct Hempty as [-> | ->]; simpl; [apply orb_true_r|reflexivity]. }
  unfold dispatch. split.
  - intros Hm. rewrite Hm. simpl. unfold casePost. rewrite Hq.
    destruct perr as [qe|]; simpl; [|rewrite Hor; simpl];
      (split; [reflexivity|repeat constructor]).
  - intros Hm Hsz. rewrite Hm. simpl. unfold casePut. rewrite Hq.
    destruct perr as [qe|]; simpl.
    { split; [repeat constructor|]. split; [discriminate|reflexivity]. }
    apply Nat.eqb_neq in Hsz. rewrite Hsz. simpl.
    destruct (Atoi (index (Request.QueryStringParameters req) "id")) as [linkId aerr].
    unfold bind, call, ret. simpl.
    destruct (GetLink B linkId (afterSetup B w)) as [[linkObj [e|]] w1]; simpl.
    + split; [repeat constructor|]. split; [reflexivity|].
      intros [H|H]; [now elim H|discriminate H].
    + rewrite Hor. simpl.
      split; [repeat constructor|]. split; [intros _ H; now elim H|reflexivity].
Qed.

End DispatcherFacts.

(* ===================================================================== *)
(** ** The statements at work on the reference backend *)
(* ===================================================================== *)

(** The reference store is always reachable. *)
Lemma setupOk_mem (w : Mem.World) : setupOk Mem.backend w.
Proof. split; reflexivity. Qed.

(** A store call leaves the table alone when it fails, and otherwise does
    to the rows what the query does, on the same rows. *)
Lemma storeCall_cases {A} (onFault : A) (op : Mem.World → A * Mem.World)
    (w : Mem.World) :
  (∃ fs, Mem.faults w = true :: fs
         ∧ Mem.storeCall onFault op w
           = (onFault, Mem.mkWorld (Mem.rows w) (Mem.nextID w) fs (Mem.web w)))
  ∨ (∃ fs, Mem.storeCall onFault op w
           = op (Mem.mkWorld (Mem.rows w) (Mem.nextID w) fs (Mem.web w))).
Proof.
  unfold Mem.storeCall. destruct w as [rows next [|[] fs] web]; simpl; eauto.
Qed.

(** A read leaves the rows alone, and finds the stored row. *)
Lemma getLink_rows (id : Z) (w w1 : Mem.World) (l : Link.t) (e : option error) :
  Mem.getLink id w = ((l, e), w1) →
  Mem.rows w1 = Mem.rows w ∧ (e = None → storedRow w id = Some l).
Proof.
  unfold Mem.getLink, storedRow.
  destruct (storeCall_cases (Link.zero, Some Mem.connLost)
              (fun w => match List.find (fun l => Link.ID l =? id) (Mem.rows w) with
                        | Some l => ((l, None), w)
                        | None => ((Link.zero, Some Mem.errNoRows), w)
                        end) w) as [(fs & _ & ->)|(fs & ->)]; simpl.
  - intros [= <- <- <-]. split; [reflexivity|discriminate].
  - destruct (List.find _ (Mem.rows w)) as [l0|]; intros [= <- <- <-]; simpl;
      split; auto; discriminate.
Qed.

(** Searching by identifier after a map that keeps identifiers. *)
Lemma find_map_same_id (upd : Link.t → Link.t) (rows : list Link.t) (id : Z) :
  (∀ l, Link.ID (upd l) = Link.ID l) →
  List.find (fun l => Link.ID l =? id) (map upd rows)
  = upd <$> List.find (fun l => Link.ID l =? id) rows.
Proof.
  intros Hid. induction rows as [|x rows IH]; simpl; [reflexivity|].
  rewrite Hid. destruct (Link.ID x =? id); [reflexivity|exact IH].
Qed.

(** An update that carries the stored title and image URL of its row
    changes the title and image URL of no row. *)
Lemma updateLink_metadata (p : UpdateLinkParams.t) (w : Mem.World) (l : Link.t) :
  storedRow w (UpdateLinkParams.ID p) = Some l →
  UpdateLinkParams.Title p = Link.Title l →
  UpdateLinkParams.ImageUrl p = Link.ImageUrl l →
  ∀ id, storedMetadata (Mem.updateLink p w).2 id = storedMetadata w id.
Proof.
  intros Hl Ht Hi id. unfold Mem.updateLink.
  match goal with
  | |- context [Mem.storeCall ?f ?op w] =>
      destruct (storeCall_cases f op w) as [(fs & _ & ->)|(fs & ->)]
  end; simpl; [reflexivity|].
  unfold storedMetadata, storedRow in *. simpl.
  rewrite find_map_same_id
    by (intros x; destruct (Link.ID x =? UpdateLinkParams.ID p); reflexivity).
  destruct (List.find (fun l => Link.ID l =? id) (Mem.rows w)) as [r|] eqn:Hr;
    simpl; [|reflexivity].
  destruct (Link.ID r =? UpdateLinkParams.ID p) eqn:E; [|reflexivity].
  apply Z.eqb_eq in E. apply List.find_some in Hr as Hr'.
  destruct Hr' as [_ Hrid]. apply Z.eqb_eq in Hrid.
  assert (id = UpdateLinkParams.ID p) as -> by congruence.
  rewrite Hl in Hr. injection Hr as ->. simpl. now rewrite Ht, Hi.
Qed.

Lemma storedMetadata_rows (w w' : Mem.World) (id : Z) :
  Mem.rows w' = Mem.rows w → storedMetadata w' id = storedMetadata w id.
Proof. unfold storedMetadata, storedRow. now intros ->. Qed.

(** On the in-memory table, whatever the connection does: a full update
    that submits the url stored under its identifier leaves the title and
    the image URL of every row as they were. *)
Lemma mem_same_url_update_keeps_stored_metadata
    (req : Request.t) (w : Mem.World) (formData : Values) (linkObj : Link.t) :
  Request.HTTPMethod req = "PUT" →
  ParseQuery (Request.Body req) = (formData, None) →
  size formData ≠ 0%nat →
  storedRow w (Atoi (index (Request.QueryStringParameters req) "id")).1
  = Some linkObj →
  Get formData "url" = Link.Url linkObj →
  ∀ id, storedMetadata (final (handler Mem.backend req) w) id = storedMetadata w id.
Proof.
  intros Hm Hq Hsz Hrow Hu id. unfold final.
  rewrite (handler_setupOk Mem.backend req w (setupOk_mem w)).
  change (afterSetup Mem.backend w) with w.
  unfold dispatch. rewrite Hm. simpl. unfold casePut. rewrite Hq.
  apply Nat.eqb_neq in Hsz. rewrite Hsz. simpl.
  destruct (Atoi (index (Request.QueryStringParameters req) "id")) as [linkId aerr].
  simpl in Hrow. unfold bind, call, ret. simpl.
  destruct (Mem.getLink linkId w) as [[l e] w1] eqn:Hg.
  apply getLink_rows in Hg as [Hr1 Hfound]. simpl.
  destruct e as [e|]; simpl; [now apply storedMetadata_rows|].
  specialize (Hfound eq_refl). rewrite Hrow in Hfound. injection Hfound as <-.
  destruct (String.eqb (Get formData "commentary") ""
            || String.eqb (Get formData "url") ""); simpl;
    [now apply storedMetadata_rows|].
  rewrite Hu, String.eqb_refl. simpl.
  assert (Hid : Link.ID linkObj = linkId).
  { apply List.find_some in Hrow as [_ H]. now apply Z.eqb_eq in H. }
  match goal with
  | |- context [Mem.updateLink ?p w1] =>
      pose proof (updateLink_metadata p w1 linkObj) as Hupd;
      destruct (Mem.updateLink p w1) as [r w2]
  end.
  simpl in Hupd.
  assert (Hkeep : storedMetadata w2 id = storedMetadata w id).
  { rewrite Hupd; [now apply storedMetadata_rows| |reflexivity|reflexivity].
    unfold storedRow. now rewrite Hr1, Hid. }
  destruct r as [e|]; simpl; [exact Hkeep|].
  destruct (Mem.getLink linkId w2) as [[l2 e2] w3] eqn:Hg2.
  apply getLink_rows in Hg2 as [Hr3 _]. simpl.
  rewrite <- Hkeep. destruct e2; simpl; now apply storedMetadata_rows.
Qed.

(** Spec example 5: a page whose only image is [/logo.png], fetched from
    [https://site.com/post]. *)
Example example5_root_relative_image :
  result (fetchMetadata Mem.backend "https://site.com/post") Sample.empty
  = (LinkMetadata.mk "" "https://site.com/logo.png", None).
Proof. reflexivity. Qed.

(** Spec example 1, with the store's answer: the created Link has the
    submitted url and commentary and the resolved title and image. *)
Example example1_create :
  Mem.rows (final (handler Mem.backend Sample.postEx) Sample.empty)
  = [Link.mk 1 "https://ex.com" "hi" (Sample.present "Ex")
       (Sample.present "https://ex.com/a.png")].
Proof. reflexivity. Qed.

(** C1, counterexample. The page has an [og:title] whose content is empty
    and a [title] meta tag: the resolver answers an empty title, where the
    first non-empty match is "Real title". *)
Lemma C1_counterexample_blank_og_title :
  (result (fetchMetadata Mem.backend "https://blank.example/og") Sample.empty).1
  = LinkMetadata.mk "" ""
  ∧ specTitle Sample.pageBlankOg = "Real title"
  ∧ extractTitle Sample.pageBlankOg ≠ specTitle Sample.pageBlankOg.
Proof. split; [reflexivity|]. split; [reflexivity|]. vm_compute. discriminate. Qed.

(** The same with a [<title>] that holds one space: it wins, trimmed to
    nothing, over an [og:title] that has text. *)
Example blank_title_wins :
  extractTitle Sample.pageBlankTitle = ""
  ∧ specTitle Sample.pageBlankTitle = "Og title".
Proof. split; reflexivity. Qed.

(** C1 on [https://ex.com], whose title is [" Ex "] before trimming. *)
Lemma C1_witness :
  let urlStr := "https://ex.com" in
  let md := LinkMetadata.mk "Ex" "https://ex.com/a.png" in
  result (fetchMetadata Mem.backend urlStr) Sample.empty = (md, None)
  ∧ ∃ doc,
      In (EvNewDocument (inl doc)) (trace (fetchMetadata Mem.backend urlStr) Sample.empty)
      ∧ let raw := Text (Find doc titleSel) in
        let og := Attr (Find doc ogTitleSel) "content" in
        let mt := Attr (Find doc metaTitleSel) "content" in
        let title := LinkMetadata.Title md in
        (TrimSpace raw ≠ "" → title = TrimSpace raw)
        ∧ (raw ≠ "" → title = TrimSpace raw)
        ∧ (raw = "" → og.2 = true → title = TrimSpace og.1)
        ∧ (raw = "" → og.2 = false → mt.2 = true → title = TrimSpace mt.1)
        ∧ (raw = "" → og.2 = false → mt.2 = false → title = "").
Proof.
  split; [reflexivity|].
  apply (C1_title_first_present_match Mem.backend). reflexivity.
Defined.

(** C2, at a failing input: the insert succeeds and the connection is lost
    before the re-read. The error of the re-read is dropped and the answer
    is a 200 that renders the zero Link. *)
Theorem C2_create_reread_failure_answers_200 :
  In (EvGetLink 1 (Link.zero, Some Mem.connLost))
     (trace (handler Mem.backend Sample.postEx) Sample.dropsSecond)
  ∧ result (handler Mem.backend Sample.postEx) Sample.dropsSecond
    = respond Mem.backend Sample.postEx (OneLink Link.zero)
  ∧ Response.StatusCode
      (result (handler Mem.backend Sample.postEx) Sample.dropsSecond).1 = 200.
Proof.
  split; [|split; reflexivity].
  vm_compute. do 5 right. left. reflexivity.
Qed.

(** C4, at a failing input: an edit-form request whose [id] is [abc]. The
    parse error and the "no rows" error of the fetch of Link 0 are both
    dropped, and the answer is a 200 with the edit form of the zero Link. *)
Theorem C4_edit_form_bad_id_answers_200 :
  (Atoi "abc").2 = Some ErrSyntax
  ∧ In (EvGetLink 0 (Link.zero, Some Mem.errNoRows))
       (trace (handler Mem.backend Sample.putEditFormAbc) Sample.empty)
  ∧ result (handler Mem.backend Sample.putEditFormAbc) Sample.empty
    = (Response.mk 200 htmlHeaders
         (Execute Mem.backend editTemplate (OneLink Link.zero)).1, None).
Proof.
  split; [reflexivity|]. split; [|reflexivity].
  vm_compute. do 2 right. left. reflexivity.
Qed.

(** The same when the fetch itself fails, on a well-formed [id]. *)
Example edit_form_fetch_failure_answers_200 :
  In (EvGetLink 5 (Link.zero, Some Mem.connLost))
     (trace (handler Mem.backend Sample.putEditForm5) Sample.dropsFirst)
  ∧ Response.StatusCode
      (result (handler Mem.backend Sample.putEditForm5) Sample.dropsFirst).1 = 200.
Proof.
  split; [|reflexivity]. vm_compute. do 2 right. left. reflexivity.
Qed.

(** C3 on the two-row table: [PUT ?id=5] with the stored url and a new
    commentary; the row keeps its title and image. *)
Lemma C3_witness :
  let req := Sample.putSameUrl5 in
  let w := Sample.stocked in
  let formData := (ParseQuery (Request.Body req)).1 in
  let tr := trace (handler Mem.backend req) w in
  let link :=
    UpdateLinkParams.mk "https://ex.com" "new note"
      (Link.Title Sample.link5) (Link.ImageUrl Sample.link5) 5 in
  (size formData ≠ 0%nat ∧ Get formData "url" = Link.Url Sample.link5)
  ∧ noFetch tr
  ∧ (∀ q r, In (EvUpdateLink q r) tr → q = link)
  ∧ (∃ r, In (EvUpdateLink link r) tr)
  ∧ Mem.rows (final (handler Mem.backend req) w)
    = [Sample.link0;
       Link.mk 5 "https://ex.com" "new note"
         (Link.Title Sample.link5) (Link.ImageUrl Sample.link5)].
Proof.
  intros req w formData tr link.
  assert (Hsz : size formData ≠ 0%nat) by (vm_compute; lia).
  pose proof (C3_update_same_url_keeps_metadata Mem.backend req w w formData
                Sample.link5 eq_refl (setupOk_mem w) eq_refl Hsz eq_refl eq_refl)
    as (H1 & H2 & H3).
  split; [split; [exact Hsz|reflexivity]|].
  split; [exact H1|]. split; [exact H2|].
  split; [apply H3; vm_compute; discriminate|reflexivity].
Defined.

(** C5, counterexample. A full update without [url], for an identifier
    that the store does not hold: the answer is the 400 of the identifier,
    "Invalid link ID", not the 400 of the payload. *)
Lemma C5_counterexample_invalid_identifier_first :
  let req := Sample.putNoUrl7 in
  let formData := (ParseQuery (Request.Body req)).1 in
  Request.HTTPMethod req = "PUT"
  ∧ size formData ≠ 0%nat
  ∧ Get formData "url" = ""
  ∧ result (handler Mem.backend req) Sample.stocked
    = (plain 400 "Invalid link ID", None)
  ∧ result (handler Mem.backend req) Sample.stocked
    ≠ (plain 400 "Invalid request body", None).
Proof.
  split; [reflexivity|]. split; [vm_compute; lia|]. split; [reflexivity|].
  split; [reflexivity|]. vm_compute. discriminate.
Qed.

(** C5 on the two-row table: a create without url, a full update without
    url for an identifier that is not stored, and the write of a valid
    create. *)
Lemma C5_witness :
  (result (handler Mem.backend Sample.postNoUrl) Sample.stocked
   = (plain 400 "Invalid request body", None)
   ∧ noWrite (trace (handler Mem.backend Sample.postNoUrl) Sample.stocked))
  ∧ (result (handler Mem.backend Sample.putNoUrl7) Sample.stocked
     = (plain 400 "Invalid link ID", None)
     ∧ noWrite (trace (handler Mem.backend Sample.putNoUrl7) Sample.stocked))
  ∧ (∀ q r, In (EvCreateLink q r) (trace (handler Mem.backend Sample.postEx) Sample.empty) →
     CreateLinkParams.Url q ≠ "" ∧ CreateLinkParams.Commentary q ≠ "").
Proof.
  pose proof (C5_incomplete_payload_rejected_before_write Mem.backend
                Sample.postNoUrl Sample.stocked (setupOk_mem _)) as (H1 & _).
  pose proof (C5_incomplete_payload_rejected_before_write Mem.backend
                Sample.putNoUrl7 Sample.stocked (setupOk_mem _)) as (H2 & _).
  pose proof (C5_incomplete_payload_rejected_before_write Mem.backend
                Sample.postEx Sample.empty (setupOk_mem _)) as (_ & H3 & _).
  split; [|split; [|exact H3]].
  - apply (H1 (ParseQuery "commentary=hi").1 None eq_refl (or_introl eq_refl)).
    reflexivity.
  - destruct (H2 (ParseQuery "commentary=x").1 None eq_refl (or_introl eq_refl))
      as [_ Hput].
    assert (Hsz : size (ParseQuery "commentary=x").1 ≠ 0%nat) by (vm_compute; lia).
    destruct (Hput eq_refl Hsz) as (Hw & Hid & _).
    split; [|exact Hw]. apply Hid; [reflexivity|]. vm_compute. discriminate.
Defined.

(** C6 on [https://site.com/post]: after an element without [src] and one
    with a [data:] URL, each of the four forms of [src]. *)
Lemma C6_witness :
  let B := Mem.backend in
  let urlStr := "https://site.com/post" in
  let scan := fun imgs => Each imgs (imgEach B urlStr) "" in
  Forall (fun n => imgEach B urlStr "" n = "") Sample.imgsPre
  ∧ scan (Sample.imgsPre ++ Sample.img "//cdn.example/x.png" :: Sample.imgsPost)
    = "https://cdn.example/x.png"
  ∧ scan (Sample.imgsPre ++ Sample.img "/logo.png" :: Sample.imgsPost)
    = "https://site.com/logo.png"
  ∧ scan (Sample.imgsPre ++ Sample.img "https://cdn.example/y.png" :: Sample.imgsPost)
    = "https://cdn.example/y.png"
  ∧ scan (Sample.imgsPre ++ Sample.img "logo.png" :: Sample.imgsPost)
    = "http://cdn.example/late.png".
Proof.
  intros B urlStr scan.
  assert (Hpre : Forall (fun n => imgEach B urlStr "" n = "") Sample.imgsPre)
    by (repeat constructor).
  split; [exact Hpre|]. subst scan. cbv beta.
  split; [|split; [|split]].
  - apply (C6_img_fallback_resolution B urlStr Sample.imgsPre Sample.imgsPost
             (Sample.img "//cdn.example/x.png") "//cdn.example/x.png" Hpre eq_refl).
    reflexivity.
  - apply (proj1 (proj2 (C6_img_fallback_resolution B urlStr Sample.imgsPre
             Sample.imgsPost (Sample.img "/logo.png") "/logo.png" Hpre eq_refl))
             eq_refl eq_refl (URL.mk "https" "site.com")).
    reflexivity.
  - apply (proj1 (proj2 (proj2 (C6_img_fallback_resolution B urlStr Sample.imgsPre
             Sample.imgsPost (Sample.img "https://cdn.example/y.png")
             "https://cdn.example/y.png" Hpre eq_refl)))); reflexivity.
  - rewrite (proj2 (proj2 (proj2 (C6_img_fallback_resolution B urlStr Sample.imgsPre
             Sample.imgsPost (Sample.img "logo.png") "logo.png" Hpre eq_refl)))
             eq_refl eq_refl).
    reflexivity.
Defined.

(** C7 on the stand-in templates: list, detail view, card, an unsupported
    value, and JSON. *)
Lemma C7_witness :
  let B := Mem.backend in
  let two := [Sample.link5; Sample.link0] in
  respond B Sample.getList (Links two)
  = (Response.mk 200 htmlHeaders (Execute B listTemplate (Links two)).1, None)
  ∧ respond B Sample.getDetail5 (OneLink Sample.link5)
    = (Response.mk 200 htmlHeaders
         (Execute B detailTemplate (OneLink Sample.link5)).1, None)
  ∧ respond B Sample.getCard5 (OneLink Sample.link5)
    = (Response.mk 200 htmlHeaders
         (Execute B linkTemplate (OneLink Sample.link5)).1, None)
  ∧ Response.StatusCode (respond B Sample.getList (OtherData "int")).1 = 400
  ∧ respond B Sample.getJson5 (OneLink Sample.link5)
    = (Response.mk 200 jsonHeaders (Marshal B (OneLink Sample.link5)).1, None)
  ∧ Response.Headers (respond B Sample.getJson5 (OneLink Sample.link5)).1
    = jsonHeaders.
Proof.
  intros B two.
  pose proof (C7_respond_negotiation B Sample.getList (Links two)) as (Hl & _).
  pose proof (C7_respond_negotiation B Sample.getDetail5 (OneLink Sample.link5))
    as (Hd & _).
  pose proof (C7_respond_negotiation B Sample.getCard5 (OneLink Sample.link5))
    as (Hc & _).
  pose proof (C7_respond_negotiation B Sample.getList (OtherData "int")) as (Ho & _).
  pose proof (C7_respond_negotiation B Sample.getJson5 (OneLink Sample.link5))
    as (_ & Hj & Hok).
  split; [|split; [|split; [|split; [|split]]]].
  - apply (proj1 (Hl eq_refl) two); reflexivity.
  - apply (proj1 (proj2 (Hd eq_refl)) Sample.link5); reflexivity.
  - apply (proj1 (proj2 (proj2 (Hc eq_refl))) Sample.link5);
      [reflexivity|vm_compute; discriminate|reflexivity].
  - apply (proj2 (proj2 (proj2 (Ho eq_refl))) "int"). reflexivity.
  - apply Hj; reflexivity.
  - destruct (Hok (Response.mk 200 jsonHeaders (Marshal B (OneLink Sample.link5)).1)
                eq_refl) as [_ [(Hhx & _)|(_ & Hh & _)]].
    + vm_compute in Hhx. discriminate Hhx.
    + exact Hh.
Defined.

(** C8 on the two-row table: no [id], [id=abc], a lost connection, and a
    delete that succeeds. *)
Lemma C8_witness :
  result (handler Mem.backend Sample.deleteNoId) Sample.stocked
  = (plain 400 "Missing link ID", None)
  ∧ Response.StatusCode
      (result (handler Mem.backend Sample.deleteAbc) Sample.stocked).1 = 400
  ∧ result (handler Mem.backend Sample.delete5) Sample.dropsFirst
    = (plain 500 Mem.connLost, None)
  ∧ result (handler Mem.backend Sample.delete5) Sample.stocked
    = (Response.mk 200 htmlHeaders "", None).
Proof.
  pose proof (C8_delete_responses Mem.backend Sample.deleteNoId Sample.stocked
                eq_refl (setupOk_mem _)) as (H1 & _).
  pose proof (C8_delete_responses Mem.backend Sample.deleteAbc Sample.stocked
                eq_refl (setupOk_mem _)) as (_ & H2 & _).
  pose proof (C8_delete_responses Mem.backend Sample.delete5 Sample.dropsFirst
                eq_refl (setupOk_mem _)) as (_ & _ & H3 & _).
  pose proof (C8_delete_responses Mem.backend Sample.delete5 Sample.stocked
                eq_refl (setupOk_mem _)) as (_ & _ & _ & H4).
  split; [|split; [|split]].
  - apply H1. reflexivity.
  - apply (H2 "abc"); [reflexivity|vm_compute; discriminate].
  - apply (H3 "5" 5 Mem.connLost); reflexivity.
  - apply (H4 "5" 5); reflexivity.
Defined.

(** C9: [PUT ?id=abc] with a valid payload, on the empty table and on the
    table that holds a row 0, which is updated. *)
Lemma C9_witness :
  let req := Sample.putAbc in
  let formData := (ParseQuery (Request.Body req)).1 in
  (Atoi "abc").2 = Some ErrSyntax
  ∧ result (handler Mem.backend req) Sample.empty
    = (plain 400 "Invalid link ID", None)
  ∧ Response.StatusCode (result (handler Mem.backend req) Sample.stocked).1 ≠ 400
  ∧ (∃ q r, In (EvUpdateLink q r) (trace (handler Mem.backend req) Sample.stocked)
            ∧ UpdateLinkParams.ID q = 0
            ∧ UpdateLinkParams.Url q = "https://zero.example"
            ∧ UpdateLinkParams.Commentary q = "edited")
  ∧ Mem.rows (final (handler Mem.backend req) Sample.stocked)
    = [Link.mk 0 "https://zero.example" "edited" (Sample.present "Zero")
         NullString.zero;
       Sample.link5].
Proof.
  intros req formData.
  assert (Hsz : size formData ≠ 0%nat) by (vm_compute; lia).
  pose proof (C9_put_non_integer_id_fetches_zero Mem.backend req Sample.empty
                formData eq_refl (setupOk_mem _) eq_refl Hsz eq_refl)
    as (_ & Hfail & _).
  pose proof (C9_put_non_integer_id_fetches_zero Mem.backend req Sample.stocked
                formData eq_refl (setupOk_mem _) eq_refl Hsz eq_refl)
    as (_ & _ & _ & Hok).
  split; [reflexivity|].
  split; [apply Hfail; vm_compute; discriminate|].
  assert (Hu : Get formData "url" ≠ "") by (vm_compute; discriminate).
  assert (Hc : Get formData "commentary" ≠ "") by (vm_compute; discriminate).
  destruct (Hok eq_refl Hu Hc) as [Hst Hupd].
  split; [exact Hst|]. split; [exact Hupd|reflexivity].
Defined.

(** C10: a create from [https://ex.com] (title and image found) and an
    update to [https://site.com/post] (image only: the title is absent). *)
Lemma C10_witness :
  let created := trace (handler Mem.backend Sample.postEx) Sample.empty in
  let updated := trace (handler Mem.backend Sample.putNewUrl5) Sample.stocked in
  (∃ q r, In (EvCreateLink q r) created)
  ∧ (∀ q r, In (EvCreateLink q r) created →
       presentIffNonEmpty (CreateLinkParams.Title q) "Ex"
       ∧ presentIffNonEmpty (CreateLinkParams.ImageUrl q) "https://ex.com/a.png")
  ∧ (∃ q r, In (EvUpdateLink q r) updated)
  ∧ (∀ q r, In (EvUpdateLink q r) updated →
       presentIffNonEmpty (UpdateLinkParams.Title q) ""
       ∧ presentIffNonEmpty (UpdateLinkParams.ImageUrl q) "https://site.com/logo.png").
Proof.
  intros created updated.
  pose proof (C10_metadata_present_iff_nonempty Mem.backend Sample.postEx
                Sample.empty (ParseQuery (Request.Body Sample.postEx)).1
                (setupOk_mem _) eq_refl) as Hpost.
  pose proof (C10_metadata_present_iff_nonempty Mem.backend Sample.putNewUrl5
                Sample.stocked (ParseQuery (Request.Body Sample.putNewUrl5)).1
                (setupOk_mem _) eq_refl) as Hput.
  cbv zeta in Hpost, Hput.
  assert (H1 : Get (ParseQuery (Request.Body Sample.postEx)).1 "url" ≠ "")
    by (vm_compute; discriminate).
  assert (H2 : Get (ParseQuery (Request.Body Sample.postEx)).1 "commentary" ≠ "")
    by (vm_compute; discriminate).
  assert (H3 : Get (ParseQuery (Request.Body Sample.putNewUrl5)).1 "url" ≠ "")
    by (vm_compute; discriminate).
  assert (H4 : Get (ParseQuery (Request.Body Sample.putNewUrl5)).1 "commentary" ≠ "")
    by (vm_compute; discriminate).
  assert (H5 : size (ParseQuery (Request.Body Sample.putNewUrl5)).1 ≠ 0%nat)
    by (vm_compute; lia).
  destruct (Hpost H1 H2) as [Hc _]. destruct (Hput H3 H4) as [_ Hu].
  destruct (Hc eq_refl) as [_ Hc'].
  destruct (Hc' (LinkMetadata.mk "Ex" "https://ex.com/a.png") eq_refl) as [Hc1 Hc2].
  assert (H6 : "https://site.com/post" ≠ Link.Url Sample.link5)
    by (vm_compute; discriminate).
  destruct (Hu eq_refl H5 Sample.link5 Sample.stocked eq_refl H6) as [_ Hu'].
  destruct (Hu' (LinkMetadata.mk "" "https://site.com/logo.png") eq_refl) as [Hu1 Hu2].
  split; [exact Hc1|]. split; [exact Hc2|]. split; [exact Hu1|exact Hu2].
Defined.

(* ===================================================================== *)
(** ** More about the renderer *)
(* ===================================================================== *)

Section RendererFacts.
Context {W : Type} (B : Backend W).


(** A 200 of [respond] carries one of the two content types, and no
    response of [respond] to a Link or to a list of Links is a 400. *)
Lemma respond_ok_headers (req : Request.t) (data : Data) :
  (∀ ty, data ≠ OtherData ty) →
  ((respond B req data).2 = None
   ∧ Response.StatusCode (respond B req data).1 = 200
   ∧ (Response.Headers (respond B req data).1 = htmlHeaders
      ∨ Response.Headers (respond B req data).1 = jsonHeaders))
  ∨ ((respond B req data).2 ≠ None ∧ (respond B req data).1 = plain 500 "").
Proof.
  intros Hd. unfold respond.
  destruct (String.eqb _ "true").
  - destruct data as [v|v|ty]; [| |now elim (Hd ty)].
    + destruct (Execute B listTemplate (Links v)) as [tpl [e'|]]; simpl;
        [right|left]; repeat split; auto; discriminate.
    + destruct (String.eqb _ "detail").
      * destruct (Execute B detailTemplate (OneLink v)) as [tpl [e'|]]; simpl;
          [right|left]; repeat split; auto; discriminate.
      * destruct (Execute B linkTemplate (OneLink v)) as [tpl [e'|]]; simpl;
          [right|left]; repeat split; auto; discriminate.
  - destruct (Marshal B data) as [bytes [e'|]]; simpl;
      [right|left]; repeat split; auto; discriminate.
Qed.

End RendererFacts.

(* ===================================================================== *)
(** ** More about the dispatcher: every verb, every path *)
(* ===================================================================== *)

Section HandlerFacts.
Context {W : Type} (B : Backend W).

(** Case analysis on the answer of the next collaborator call, set-up
    included. *)
Ltac next_call :=
  match goal with
  | |- context [sqlOpen B ?v] => destruct (sqlOpen B v) as [[?|] ?]
  | |- context [ExecDDL B ?v] => destruct (ExecDDL B v) as [[?|] ?]
  | |- context [GetLink B ?a ?v] => destruct (GetLink B a v) as [[? [?|]] ?]
  | |- context [ListLinks B ?v] => destruct (ListLinks B v) as [[? [?|]] ?]
  | |- context [CreateLink B ?a ?v] => destruct (CreateLink B a v) as [[? [?|]] ?]
  | |- context [UpdateLink B ?a ?v] => destruct (UpdateLink B a v) as [[?|] ?]
  | |- context [DeleteLink B ?a ?v] => destruct (DeleteLink B a v) as [[?|] ?]
  | |- context [httpGet B ?a ?v] => destruct (httpGet B a v) as [[?|?] ?]
  | |- context [NewDocumentFromReader B ?a ?v] =>
      destruct (NewDocumentFromReader B a v) as [[?|?] ?]
  end.

(** All the runs of [handler]: the [id] parameter, every call and every
    test. *)
Ltac all_runs :=
  unfold handler, dispatch, caseGet, casePost, casePut, caseDelete,
    fetchMetadata, bind, call, ret, indexOk, index;
  try match goal with
      | |- context [Request.QueryStringParameters ?r !! "id"] =>
          destruct (Request.QueryStringParameters r !! "id") as [?idv|] eqn:?Hid
      end;
  repeat (simpl;
          first
            [ next_call
            | match goal with
              | |- context [if ?c then _ else _] => destruct c eqn:?
              end
            | match goal with
              | |- context [match ?x with _ => _ end] => destruct x eqn:?
              end ]);
  simpl.

(** What [respond] answers to a Link or to a list of Links. *)
Ltac respond_cases :=
  match goal with
  | |- context [respond B ?r ?d] =>
      let H := fresh "H" in
      assert (H : ∀ ty, d ≠ OtherData ty) by (intros ty; discriminate);
      let Hr := fresh "Hr" in
      let Hs := fresh "Hs" in
      let Hh := fresh "Hh" in
      destruct (respond_ok_headers B r d H) as [(Hr & Hs & Hh)|(Hs & Hr)];
      clear H; try rewrite Hr in *; try rewrite Hs in *
  end.

(** The verb that the dispatch has found. *)
Ltac verb :=
  repeat match goal with
         | H : String.eqb (Request.HTTPMethod _) _ = true |- _ =>
             apply String.eqb_eq in H
         | H : String.eqb (Request.HTTPMethod _) _ = false |- _ =>
             apply String.eqb_neq in H
         end.

(** Every response has status 200, 400 or 500, and whenever [handler]
    returns an error the response is a bare 500. *)
Theorem handler_status_codes (req : Request.t) (w : W) :
  let out := result (handler B req) w in
  (Response.StatusCode out.1 = 200
   ∨ Response.StatusCode out.1 = 400
   ∨ Response.StatusCode out.1 = 500)
  ∧ (out.2 ≠ None → out.1 = plain 500 "").
Proof.
  unfold result. all_runs;
    try (split; [auto|]; intros H; solve [reflexivity | now elim H]).
  all: respond_cases; (split; [auto|]; intros H; solve [reflexivity | now elim H]).
Qed.

(** A 400 comes with no error and no header, and its body is one of the
    fixed messages of the verb: "Invalid link ID" on GET; "Invalid request
    body" on POST; either of the two on PUT; "Missing link ID" or "Invalid
    link ID" on DELETE. *)
Theorem handler_bad_request_bodies (req : Request.t) (w : W) :
  let out := result (handler B req) w in
  let method := Request.HTTPMethod req in
  let body := Response.Body out.1 in
  Response.StatusCode out.1 = 400 →
  out.2 = None
  ∧ Response.Headers out.1 = ∅
  ∧ ((method = "GET" ∧ body = "Invalid link ID")
     ∨ (method = "POST" ∧ body = "Invalid request body")
     ∨ (method = "PUT" ∧ (body = "Invalid request body" ∨ body = "Invalid link ID"))
     ∨ (method = "DELETE" ∧ (body = "Missing link ID" ∨ body = "Invalid link ID"))).
Proof.
  unfold result. all_runs; try discriminate; try (respond_cases; discriminate);
    verb; intros _; (split; [reflexivity|]); (split; [reflexivity|]); auto 8.
Qed.

(** A 200 comes with no error. To GET, POST, PUT and DELETE it carries a
    content type, [text/html] or [application/json]; to any other verb it
    is bare: no header and no body. *)
Theorem handler_ok_content_type (req : Request.t) (w : W) :
  let out := result (handler B req) w in
  let method := Request.HTTPMethod req in
  Response.StatusCode out.1 = 200 →
  out.2 = None
  ∧ ((In method ["GET"; "POST"; "PUT"; "DELETE"]
      ∧ (Response.Headers out.1 = htmlHeaders
         ∨ Response.Headers out.1 = jsonHeaders))
     ∨ (¬ In method ["GET"; "POST"; "PUT"; "DELETE"] ∧ out.1 = plain 200 "")).
Proof.
  unfold result. all_runs; try discriminate;
    try (respond_cases; try discriminate); verb; intros _;
    (split; [reflexivity || assumption|]);
    try (left; split; [simpl; auto 6|auto]; fail).
  all: right; split; [|reflexivity]; simpl; intuition congruence.
Qed.

(** The event at each position of an explicit trace. *)
Ltac walk pre Heq Hw :=
  destruct pre as [|? pre]; simpl in Heq;
  [ first
      [ discriminate Heq
      | injection Heq as <- <-; simpl in Hw;
        first [discriminate Hw | unfold noFetch, noWrite; repeat constructor] ]
  | first [discriminate Heq | injection Heq as _ Heq; walk pre Heq Hw] ].

(** For every request: at most one page is fetched, at most one store
    write is issued, and nothing is fetched after a write. *)
Theorem handler_one_fetch_one_write (req : Request.t) (w : W) :
  let tr := trace (handler B req) w in
  (length (fetchedUrls tr) ≤ 1)%nat
  ∧ (length (writes tr) ≤ 1)%nat
  ∧ ∀ pre e post, tr = pre ++ e :: post → isWrite e = true → noFetch post.
Proof.
  unfold trace. all_runs;
    (split; [lia|]; split; [lia|]; intros pre e post Heq Hw; walk pre Heq Hw).
Qed.

(** The store is read at most twice for a request: at most once for a
    GET, which neither writes nor fetches, and never for a DELETE, which
    does not fetch either. *)
Theorem handler_reads_by_verb (req : Request.t) (w : W) :
  let tr := trace (handler B req) w in
  let method := Request.HTTPMethod req in
  (length (reads tr) ≤ 2)%nat
  ∧ (method = "GET" → (length (reads tr) ≤ 1)%nat ∧ noWrite tr ∧ noFetch tr)
  ∧ (method = "DELETE" → length (reads tr) = 0%nat ∧ noFetch tr).
Proof.
  unfold trace. all_runs; verb;
    (split; [lia|]); split; intros Hv; try congruence;
    repeat split; try lia; repeat constructor.
Qed.

(** The kind of write follows the verb: only a POST creates, only a PUT
    updates (it never inserts), only a DELETE deletes. *)
Theorem handler_writes_by_verb (req : Request.t) (w : W) (e : Event) :
  In e (trace (handler B req) w) →
  isWrite e = true →
  let method := Request.HTTPMethod req in
  (method = "POST" ∧ ∃ p r, e = EvCreateLink p r)
  ∨ (method = "PUT" ∧ ∃ p r, e = EvUpdateLink p r)
  ∨ (method = "DELETE" ∧ ∃ id r, e = EvDeleteLink id r).
Proof.
  unfold trace. all_runs; verb; intros Hin Hw;
    repeat (destruct Hin as [<-|Hin]; [try discriminate Hw|]);
    try contradiction; eauto 8.
Qed.

(** The only page that is ever fetched is the one named by the [url]
    field of the body of a POST or of a PUT, and that field is not empty. *)
Theorem handler_fetches_submitted_url (req : Request.t) (w : W) (u : string) :
  In u (fetchedUrls (trace (handler B req) w)) →
  let method := Request.HTTPMethod req in
  (method = "POST" ∨ method = "PUT")
  ∧ u = Get (ParseQuery (Request.Body req)).1 "url"
  ∧ u ≠ "".
Proof.
  unfold trace. all_runs; verb; intros Hin;
    repeat (destruct Hin as [<-|Hin]); try contradiction;
    (split; [auto|]); (split; [reflexivity|]);
    match goal with
    | E : (String.eqb ?c "" || String.eqb ?x "") = false |- _ =>
        apply orb_false_elim in E; destruct E as [_ E];
        now apply String.eqb_neq in E
    end.
Qed.

(** When the store cannot be opened, or the table cannot be created, the
    answer is a bare 500 next to the error, whatever the request, and
    nothing else is called: no query, no fetch. *)
Theorem handler_setup_failure (req : Request.t) (w : W) (e : error) :
  ((sqlOpen B w).1 = Some e →
   result (handler B req) w = (plain 500 "", Some e)
   ∧ trace (handler B req) w = [EvOpen (Some e)])
  ∧ ((sqlOpen B w).1 = None → (ExecDDL B (sqlOpen B w).2).1 = Some e →
     result (handler B req) w = (plain 500 "", Some e)
     ∧ trace (handler B req) w = [EvOpen None; EvExecDDL (Some e)]).
Proof.
  unfold result, trace, handler, bind, call, ret. simpl.
  destruct (sqlOpen B w) as [[e1|] w1]; simpl.
  - split; [now intros [= ->]|discriminate].
  - split; [discriminate|]. intros _.
    destruct (ExecDDL B w1) as [[e2|] w2]; simpl; [now intros [= ->]|discriminate].
Qed.

(** A verb other than GET, POST, PUT and DELETE, compared byte for byte,
    is answered with a bare 200 and touches neither the store nor the
    network. *)
Theorem handler_unknown_verb (req : Request.t) (w : W) :
  setupOk B w →
  ¬ In (Request.HTTPMethod req) ["GET"; "POST"; "PUT"; "DELETE"] →
  result (handler B req) w = (plain 200 "", None)
  ∧ trace (handler B req) w = [EvOpen None; EvExecDDL None].
Proof.
  intros Hs Hm. unfold result, trace. rewrite (handler_setupOk B req w Hs).
  unfold dispatch.
  repeat match goal with
         | |- context [String.eqb (Request.HTTPMethod req) ?m] =>
             destruct (String.eqb_spec (Request.HTTPMethod req) m) as [E|_];
             [elim Hm; rewrite E; simpl; tauto|]
         end.
  split; reflexivity.
Qed.

(** GET with a non-empty [id]: an [id] that is not an integer is answered
    400 "Invalid link ID" without a query; otherwise the Link is read
    once, a failure of the read is a 500 with the error text as body, and
    the Link that was read goes to [respond]. *)
Theorem handler_get_single (req : Request.t) (w : W) (s : string) :
  Request.HTTPMethod req = "GET" →
  setupOk B w →
  Request.QueryStringParameters req !! "id" = Some s →
  s ≠ "" →
  let out := result (handler B req) w in
  let tr := trace (handler B req) w in
  ((Atoi s).2 ≠ None →
   out = (plain 400 "Invalid link ID", None)
   ∧ tr = [EvOpen None; EvExecDDL None])
  ∧ (∀ n, Atoi s = (n, None) →
     let got := (GetLink B n (afterSetup B w)).1 in
     tr = [EvOpen None; EvExecDDL None; EvGetLink n got]
     ∧ (∀ e, got.2 = Some e → out = (plain 500 e, None))
     ∧ (got.2 = None → out = respond B req (OneLink got.1))).
Proof.
  intros Hm Hs Hq Hne out tr. subst out tr. unfold result, trace.
  rewrite (handler_setupOk B req w Hs). unfold dispatch. rewrite Hm. simpl.
  unfold caseGet, index, indexOk. rewrite Hq. simpl.
  apply String.eqb_neq in Hne. rewrite Hne. simpl.
  destruct (Atoi s) as [n [ae|]]; simpl.
  - split; [intros _; split; reflexivity|]. intros n' [=].
  - split; [intros H; now elim H|]. intros n' [= <-].
    unfold bind, call, ret. simpl.
    destruct (GetLink B n (afterSetup B w)) as [[l [e|]] w1]; simpl;
      (split; [reflexivity|]); split; congruence.
Qed.

(** GET without [id], or with an empty one: the list is read once; a
    failure of the read is a bare 500 next to the error (the one store
    failure that is returned as an error and not as a body); otherwise the
    list goes to [respond]. *)
Theorem handler_get_list (req : Request.t) (w : W) :
  Request.HTTPMethod req = "GET" →
  setupOk B w →
  index (Request.QueryStringParameters req) "id" = "" →
  let out := result (handler B req) w in
  let tr := trace (handler B req) w in
  let got := (ListLinks B (afterSetup B w)).1 in
  tr = [EvOpen None; EvExecDDL None; EvListLinks got]
  ∧ (∀ e, got.2 = Some e → out = (plain 500 "", Some e))
  ∧ (got.2 = None → out = respond B req (Links got.1)).
Proof.
  intros Hm Hs Hq out tr got. subst out tr got. unfold result, trace.
  rewrite (handler_setupOk B req w Hs). unfold dispatch. rewrite Hm. simpl.
  unfold caseGet. rewrite Hq. simpl. unfold bind, call, ret. simpl.
  destruct (ListLinks B (afterSetup B w)) as [[l [e|]] w1]; simpl;
    (split; [reflexivity|]); split; congruence.
Qed.

(** A body of a POST or of a PUT that is not a well-formed query string is
    answered 400 "Invalid request body" before anything else is done: no
    query, no fetch. *)
Theorem handler_malformed_body (req : Request.t) (w : W) :
  Request.HTTPMethod req = "POST" ∨ Request.HTTPMethod req = "PUT" →
  setupOk B w →
  (ParseQuery (Request.Body req)).2 ≠ None →
  result (handler B req) w = (plain 400 "Invalid request body", None)
  ∧ trace (handler B req) w = [EvOpen None; EvExecDDL None].
Proof.
  intros Hm Hs Hq. unfold result, trace.
  rewrite (handler_setupOk B req w Hs). unfold dispatch.
  destruct Hm as [Hm|Hm]; rewrite Hm; simpl; unfold casePost, casePut;
    destruct (ParseQuery (Request.Body req)) as [formData [qe|]];
    simpl in *; try (now elim Hq); split; reflexivity.
Qed.

(** A valid create, step by step: the page named by [url] is fetched (and
    parsed if the fetch succeeded), then one [CreateLink] is issued with
    exactly the submitted url and commentary; if it fails the answer is a
    500 with the error text, and otherwise the Link is read back under the
    identifier that the insert returned and what was read goes to
    [respond]. *)
Theorem handler_create_steps (req : Request.t) (w : W) (formData : Values) :
  Request.HTTPMethod req = "POST" →
  setupOk B w →
  ParseQuery (Request.Body req) = (formData, None) →
  let Url := Get formData "url" in
  let content := Get formData "commentary" in
  Url ≠ "" → content ≠ "" →
  let out := result (handler B req) w in
  let tr := trace (handler B req) w in
  ∃ resp mid p r post,
    tr = [EvOpen None; EvExecDDL None; EvHttpGet Url resp]
         ++ mid ++ EvCreateLink p r :: post
    ∧ (mid = [] ∨ ∃ d, mid = [EvNewDocument d])
    ∧ CreateLinkParams.Url p = Url
    ∧ CreateLinkParams.Commentary p = content
    ∧ (∀ e, r.2 = Some e → post = [] ∧ out = (plain 500 e, None))
    ∧ (r.2 = None →
       ∃ got, post = [EvGetLink r.1 got] ∧ out = respond B req (OneLink got.1)).
Proof.
  intros Hm Hs Hq Url content HU HC out tr. subst out tr. unfold result, trace.
  rewrite (handler_setupOk B req w Hs). unfold dispatch. rewrite Hm. simpl.
  unfold casePost. rewrite Hq. fold Url content.
  apply String.eqb_neq in HU, HC. rewrite HU, HC. simpl.
  unfold fetchMetadata, bind, call, ret. simpl.
  destruct (httpGet B Url (afterSetup B w)) as [[body|e] wg]; simpl;
    [destruct (NewDocumentFromReader B body wg) as [[doc|e] wd]; simpl|];
    match goal with
    | |- context [CreateLink B ?p ?v] =>
        destruct (CreateLink B p v) as [[id [e1|]] w2]
    end; simpl;
    try (destruct (GetLink B id w2) as [got w3]; destruct got as [l ge]; simpl);
    first [ eexists _, [_], _, _, _; split; [reflexivity|]
          | eexists _, [], _, _, _; split; [reflexivity|] ];
    (split; [eauto|]); (split; [reflexivity|]); (split; [reflexivity|]);
    simpl; (split; [intros e' [=]; try subst; auto|]);
    intros [=]; eexists; split; reflexivity.
Qed.

(** A resolver that fails does not block the create: the Link is written
    with the submitted url and commentary and with no title and no image
    URL. *)
Theorem handler_create_without_metadata
    (req : Request.t) (w : W) (formData : Values) :
  Request.HTTPMethod req = "POST" →
  setupOk B w →
  ParseQuery (Request.Body req) = (formData, None) →
  let Url := Get formData "url" in
  let content := Get formData "commentary" in
  Url ≠ "" → content ≠ "" →
  (result (fetchMetadata B Url) (afterSetup B w)).2 ≠ None →
  ∃ r, writes (trace (handler B req) w)
       = [EvCreateLink
            (CreateLinkParams.mk Url content NullString.zero NullString.zero) r].
Proof.
  intros Hm Hs Hq Url content HU HC. unfold result, trace.
  rewrite (handler_setupOk B req w Hs). unfold dispatch. rewrite Hm. simpl.
  unfold casePost. rewrite Hq. fold Url content.
  apply String.eqb_neq in HU, HC. rewrite HU, HC. simpl.
  unfold fetchMetadata, bind, call, ret. simpl.
  destruct (httpGet B Url (afterSetup B w)) as [[body|e] wg]; simpl;
    [destruct (NewDocumentFromReader B body wg) as [[doc|e] wd]; simpl|];
    intros Hf; try (now elim Hf);
    match goal with
    | |- context [CreateLink B ?p ?v] =>
        destruct (CreateLink B p v) as [[id [e1|]] w2]
    end; simpl;
    try (destruct (GetLink B id w2) as [[l ge] w3]; simpl);
    eexists; reflexivity.
Qed.

(** A full update that changes the url: exactly one page is fetched, the
    one named by the new url, after the read of the current Link; exactly
    one write is issued, an [UpdateLink] for the identifier of the Link
    that was read, with the submitted url and commentary; and when the
    resolver fails that write carries no title and no image URL, so that
    the stored ones are erased. *)
Theorem handler_update_changed_url
    (req : Request.t) (w w1 : W) (formData : Values) (linkObj : Link.t) :
  Request.HTTPMethod req = "PUT" →
  setupOk B w →
  ParseQuery (Request.Body req) = (formData, None) →
  size formData ≠ 0%nat →
  let linkId := (Atoi (index (Request.QueryStringParameters req) "id")).1 in
  GetLink B linkId (afterSetup B w) = ((linkObj, None), w1) →
  let Url := Get formData "url" in
  let content := Get formData "commentary" in
  Url ≠ "" → content ≠ "" → Url ≠ Link.Url linkObj →
  let tr := trace (handler B req) w in
  fetchedUrls tr = [Url]
  ∧ (∃ rest, tr = [EvOpen None; EvExecDDL None; EvGetLink linkId (linkObj, None)]
                  ++ rest)
  ∧ ∃ p r,
      writes tr = [EvUpdateLink p r]
      ∧ UpdateLinkParams.ID p = Link.ID linkObj
      ∧ UpdateLinkParams.Url p = Url
      ∧ UpdateLinkParams.Commentary p = content
      ∧ ((result (fetchMetadata B Url) w1).2 ≠ None →
         UpdateLinkParams.Title p = NullString.zero
         ∧ UpdateLinkParams.ImageUrl p = NullString.zero).
Proof.
  intros Hm Hs Hq Hsz linkId Hg Url content HU HC Hne tr. subst tr.
  unfold result, trace.
  rewrite (handler_setupOk B req w Hs). unfold dispatch. rewrite Hm. simpl.
  unfold casePut. rewrite Hq. fold Url content.
  apply Nat.eqb_neq in Hsz. rewrite Hsz. simpl.
  subst linkId.
  destruct (Atoi (index (Request.QueryStringParameters req) "id")) as [linkId aerr].
  simpl in Hg. unfold fetchMetadata, bind, call, ret. simpl. rewrite Hg. simpl.
  apply String.eqb_neq in HU, HC, Hne. rewrite HU, HC, Hne. simpl.
  destruct (httpGet B Url w1) as [[body|e] wg]; simpl;
    [destruct (NewDocumentFromReader B body wg) as [[doc|e] wd]; simpl|];
    match goal with
    | |- context [UpdateLink B ?p ?v] =>
        destruct (UpdateLink B p v) as [[e1|] w2]
    end; simpl;
    try (destruct (GetLink B linkId w2) as [[l [e2|]] w3]; simpl);
    (split; [reflexivity|]); (split; [eauto|]);
    eexists _, _; (split; [reflexivity|]); simpl;
    do 3 (split; [reflexivity|]);
    intros Hf; first [now elim Hf | split; reflexivity].
Qed.

(** How an update ends, once its [UpdateLink] is issued: a failure of the
    write is a 500 with the error text; otherwise the Link is read again
    under the identifier of the request, a failure of that read is a 500
    with the error text, and the Link that was read goes to [respond]. *)
Theorem handler_update_ends (req : Request.t) (w : W) :
  Request.HTTPMethod req = "PUT" →
  setupOk B w →
  let out := result (handler B req) w in
  let tr := trace (handler B req) w in
  let linkId := (Atoi (index (Request.QueryStringParameters req) "id")).1 in
  (∀ p e, In (EvUpdateLink p (Some e)) tr → out = (plain 500 e, None))
  ∧ (∀ p, In (EvUpdateLink p None) tr →
     ∃ got,
       last tr = Some (EvGetLink linkId got)
       ∧ (∀ e, got.2 = Some e → out = (plain 500 e, None))
       ∧ (got.2 = None → out = respond B req (OneLink got.1))).
Proof.
  intros Hm Hs out tr linkId. subst out tr linkId. unfold result, trace.
  rewrite (handler_setupOk B req w Hs). unfold dispatch. rewrite Hm.
  simpl String.eqb. cbv iota.
  unfold casePut, fetchMetadata, bind, call, ret, index.
  destruct (Atoi (default "" (Request.QueryStringParameters req !! "id")))
    as [linkId aerr]. simpl.
  repeat (simpl;
          first
            [ next_call
            | match goal with
              | |- context [if ?c then _ else _] => destruct c eqn:?
              end
            | match goal with
              | |- context [match ?x with _ => _ end] => destruct x eqn:?
              end ]);
    simpl;
    (split;
     [ intros p e Hin; repeat (destruct Hin as [Hin|Hin]; try discriminate Hin);
       try contradiction; now injection Hin as <- <-
     | intros p Hin; repeat (destruct Hin as [Hin|Hin]; try discriminate Hin);
       try contradiction;
       eexists; (split; [reflexivity|]); simpl; split; congruence ]).
Qed.

(** The edit-form request (PUT, no field in the body, a non-empty [id])
    reads the store once and does nothing else; it never negotiates: its
    200 is [text/html] whatever the headers of the request, and a failure
    of the template is a 500 with the error text as body. *)
Theorem handler_edit_form (req : Request.t) (w : W) (formData : Values) :
  Request.HTTPMethod req = "PUT" →
  setupOk B w →
  ParseQuery (Request.Body req) = (formData, None) →
  size formData = 0%nat →
  let linkIdStr := index (Request.QueryStringParameters req) "id" in
  linkIdStr ≠ "" →
  let out := result (handler B req) w in
  let got := (GetLink B (Atoi linkIdStr).1 (afterSetup B w)).1 in
  trace (handler B req) w
  = [EvOpen None; EvExecDDL None; EvGetLink (Atoi linkIdStr).1 got]
  ∧ out.2 = None
  ∧ ((Response.StatusCode out.1 = 200
      ∧ Response.Headers out.1 = htmlHeaders
      ∧ Execute B editTemplate (OneLink got.1) = (Response.Body out.1, None))
     ∨ (Response.Headers out.1 = ∅
        ∧ ∃ tpl, Execute B editTemplate (OneLink got.1)
                 = (tpl, Some (Response.Body out.1))
                 ∧ Response.StatusCode out.1 = 500)).
Proof.
  intros Hm Hs Hq Hsz linkIdStr Hid out got. subst out got.
  unfold result, trace.
  rewrite (handler_setupOk B req w Hs). unfold dispatch. rewrite Hm. simpl.
  unfold casePut. fold linkIdStr. rewrite Hq, Hsz.
  apply String.eqb_neq in Hid. rewrite Hid. simpl.
  destruct (Atoi linkIdStr) as [linkId aerr]. unfold bind, call, ret. simpl.
  destruct (GetLink B linkId (afterSetup B w)) as [[linkObj e] w1]. simpl.
  destruct (Execute B editTemplate (OneLink linkObj)) as [tpl [e'|]]; simpl;
    (split; [reflexivity|]); (split; [reflexivity|]); [right|left]; eauto.
Qed.

End HandlerFacts.

(* ===================================================================== *)
(** ** More about the resolver *)
(* ===================================================================== *)

Section MoreResolverFacts.
Context {W : Type} (B : Backend W).

(** The scan of the [<img>] elements, from an empty image URL, is a search:
    its result is what the first element that yields a URL yields, and it
    is empty when no element yields one. *)
Theorem img_scan_is_first_constructed (urlStr : string) (imgs : list Node) :
  Each imgs (imgEach B urlStr) ""
  = match List.find (constructs B urlStr) imgs with
    | Some n => imgEach B urlStr "" n
    | None => ""
    end.
Proof.
  unfold Each. induction imgs as [|n imgs IH]; simpl; [reflexivity|].
  unfold constructs at 1.
  destruct (String.eqb_spec (imgEach B urlStr "" n) "") as [E|E]; simpl.
  - rewrite E. exact IH.
  - now apply (Each_imgEach_keeps B urlStr).
Qed.

(** The image chain. When the resolver returns without error, the image
    URL is the [content] of the first [og:image] meta element if it has
    one, taken as it is: not trimmed, not resolved against the page, and
    kept even when empty. Failing that it is the [content] of the first
    [twitter:image] meta element, in the same way. Failing that it is what
    the first [<img>] element that yields a URL yields. *)
Theorem fetchMetadata_image_chain (urlStr : string) (w : W) (md : LinkMetadata.t) :
  result (fetchMetadata B urlStr) w = (md, None) →
  ∃ doc,
    In (EvNewDocument (inl doc)) (trace (fetchMetadata B urlStr) w)
    ∧ let og := Attr (Find doc ogImageSel) "content" in
      let tw := Attr (Find doc twitterImageSel) "content" in
      let image := LinkMetadata.ImageURL md in
      (og.2 = true → image = og.1)
      ∧ (og.2 = false → tw.2 = true → image = tw.1)
      ∧ (og.2 = false → tw.2 = false →
         image = match List.find (constructs B urlStr) (Find doc imgSel) with
                 | Some n => imgEach B urlStr "" n
                 | None => ""
                 end).
Proof.
  unfold result, trace, fetchMetadata, bind, call, ret. simpl.
  destruct (httpGet B urlStr w) as [[body|e] wg]; simpl; [|discriminate].
  destruct (NewDocumentFromReader B body wg) as [[doc|e] wd]; simpl; [|discriminate].
  intros [= <-]. exists doc. split; [right; left; reflexivity|].
  simpl. unfold extractImage.
  destruct (Attr (Find doc ogImageSel) "content") as [v1 e1].
  destruct (Attr (Find doc twitterImageSel) "content") as [v2 e2]. simpl.
  split; [now intros ->|]. split; [now intros -> ->|].
  intros -> ->. apply img_scan_is_first_constructed.
Qed.

(** The resolver fetches the page it is given, once, and parses what it
    got, once; it calls nothing else, the store least of all. When the
    fetch or the parse fails it returns that error with empty metadata, and
    it returns no other error. *)
Theorem fetchMetadata_calls_and_failure (urlStr : string) (w : W) :
  let out := result (fetchMetadata B urlStr) w in
  let tr := trace (fetchMetadata B urlStr) w in
  let resp := (httpGet B urlStr w).1 in
  ((∃ e, resp = inr e ∧ tr = [EvHttpGet urlStr resp]
         ∧ out = (LinkMetadata.zero, Some e))
   ∨ (∃ body d, resp = inl body ∧ tr = [EvHttpGet urlStr resp; EvNewDocument d]
                ∧ match d with
                  | inr e => out = (LinkMetadata.zero, Some e)
                  | inl doc => out.2 = None
                  end))
  ∧ Forall (fun e => isStore e = false) tr.
Proof.
  unfold result, trace, fetchMetadata, bind, call, ret. simpl.
  destruct (httpGet B urlStr w) as [[body|e] wg]; simpl.
  - destruct (NewDocumentFromReader B body wg) as [[doc|e] wd]; simpl;
      (split; [right; eexists _, _; repeat split|repeat constructor]).
  - split; [left; eauto|repeat constructor].
Qed.

End MoreResolverFacts.

(* ===================================================================== *)
(** ** Trimming *)
(* ===================================================================== *)

(** What is left of a string after [trimLeftSpace] does not start with a
    white space byte. *)
Lemma trimLeftSpace_head (s : list ascii) (c : ascii) (r : list ascii) :
  trimLeftSpace s = c :: r → asciiSpace c = false.
Proof.
  remember (length s) as n eqn:Hn. revert s Hn c r.
  induction n as [n IH] using lt_wf_ind. intros s Hn c r. subst n.
  destruct s as [|c1 r1]; [discriminate|].
  unfold trimLeftSpace; fold trimLeftSpace.
  destruct (asciiSpace c1) eqn:E1;
    [apply (IH (length r1)); [simpl; lia|reflexivity]|].
  destruct r1 as [|c2 r2]; [now intros [= <- _]|].
  destruct (space2 c1 c2);
    [apply (IH (length r2)); [simpl; lia|reflexivity]|].
  destruct r2 as [|c3 r3]; [now intros [= <- _]|].
  destruct (space3 c1 c2 c3);
    [apply (IH (length r3)); [simpl; lia|reflexivity]|].
  now intros [= <- _].
Qed.

(** The same for the scan from the end. *)
Lemma trimRightSpaceRev_head (s : list ascii) (c : ascii) (r : list ascii) :
  trimRightSpaceRev s = c :: r → asciiSpace c = false.
Proof.
  remember (length s) as n eqn:Hn. revert s Hn c r.
  induction n as [n IH] using lt_wf_ind. intros s Hn c r. subst n.
  destruct s as [|c1 r1]; [discriminate|].
  unfold trimRightSpaceRev; fold trimRightSpaceRev.
  destruct (asciiSpace c1) eqn:E1;
    [apply (IH (length r1)); [simpl; lia|reflexivity]|].
  destruct r1 as [|c2 r2]; [now intros [= <- _]|].
  destruct (space2 c2 c1);
    [apply (IH (length r2)); [simpl; lia|reflexivity]|].
  destruct r2 as [|c3 r3]; [now intros [= <- _]|].
  destruct (space3 c3 c2 c1);
    [apply (IH (length r3)); [simpl; lia|reflexivity]|].
  now intros [= <- _].
Qed.

(** The scan from the end only removes bytes at its start. *)
Lemma trimRightSpaceRev_suffix (s : list ascii) :
  ∃ pre, s = pre ++ trimRightSpaceRev s.
Proof.
  remember (length s) as n eqn:Hn. revert s Hn.
  induction n as [n IH] using lt_wf_ind. intros s Hn. subst n.
  destruct s as [|c1 r1]; [now exists []|].
  unfold trimRightSpaceRev; fold trimRightSpaceRev.
  destruct (asciiSpace c1).
  { destruct (IH (length r1) ltac:(simpl; lia) r1 eq_refl) as [pre Hpre].
    exists (c1 :: pre). simpl. now rewrite <- Hpre. }
  destruct r1 as [|c2 r2]; [now exists []|].
  destruct (space2 c2 c1).
  { destruct (IH (length r2) ltac:(simpl; lia) r2 eq_refl) as [pre Hpre].
    exists (c1 :: c2 :: pre). simpl. now rewrite <- Hpre. }
  destruct r2 as [|c3 r3]; [now exists []|].
  destruct (space3 c3 c2 c1); [|now exists []].
  destruct (IH (length r3) ltac:(simpl; lia) r3 eq_refl) as [pre Hpre].
  exists (c1 :: c2 :: c3 :: pre). simpl. now rewrite <- Hpre.
Qed.

(** [strings.TrimSpace] leaves no white space byte at either end. *)
Lemma TrimSpace_noOuterSpace (s : string) : noOuterSpace (TrimSpace s).
Proof.
  unfold noOuterSpace, TrimSpace. rewrite list_ascii_of_string_of_list_ascii.
  set (t := trimLeftSpace (list_ascii_of_string s)).
  destruct (trimRightSpaceRev_suffix (rev t)) as [pre Hpre].
  split; intros c r H.
  - apply (f_equal (@rev ascii)) in Hpre.
    rewrite rev_involutive, rev_app_distr, H in Hpre. simpl in Hpre.
    now apply (trimLeftSpace_head (list_ascii_of_string s) c (r ++ rev pre)).
  - rewrite rev_involutive in H. now apply (trimRightSpaceRev_head (rev t) c r).
Qed.

(** The title that the resolver extracts is trimmed, by whichever branch
    it was found: it neither starts nor ends with a white space byte. *)
Theorem extractTitle_is_trimmed (doc : Document) : noOuterSpace (extractTitle doc).
Proof.
  unfold extractTitle.
  destruct (negb _); [apply TrimSpace_noOuterSpace|].
  destruct (Attr (Find doc ogTitleSel) "content") as [v1 [|]];
    [apply TrimSpace_noOuterSpace|].
  destruct (Attr (Find doc metaTitleSel) "content") as [v2 [|]];
    [apply TrimSpace_noOuterSpace|].
  split; intros c r; discriminate.
Qed.

(* ===================================================================== *)
(** ** The dispatcher on the in-memory table *)
(* ===================================================================== *)

Lemma afterSetup_mem (w : Mem.World) : afterSetup Mem.backend w = w.
Proof. reflexivity. Qed.

(** A store call on a connection without failures is the query itself. *)
Lemma storeCall_healthy {A} (onFault : A) (op : Mem.World → A * Mem.World)
    (w : Mem.World) :
  Mem.faults w = [] → Mem.storeCall onFault op w = op w.
Proof. unfold Mem.storeCall. now intros ->. Qed.

Lemma insertDesc_perm (l : Link.t) (sorted : list Link.t) :
  Permutation (Mem.insertDesc l sorted) (l :: sorted).
Proof.
  induction sorted as [|x rest IH]; simpl; [reflexivity|].
  destruct (Link.ID x <=? Link.ID l); [reflexivity|].
  rewrite IH. apply perm_swap.
Qed.

Lemma insertDesc_descending (l : Link.t) (sorted : list Link.t) :
  descending sorted → descending (Mem.insertDesc l sorted).
Proof.
  induction sorted as [|x rest IH]; simpl; [intros _; split; [constructor|exact I]|].
  intros [Hx Hrest]. destruct (Z.leb_spec (Link.ID x) (Link.ID l)) as [Hle|Hlt].
  - simpl. split; [|split; assumption].
    constructor; [exact Hle|].
    eapply Forall_impl; [exact Hx|]. simpl. intros y Hy. lia.
  - simpl. split; [|now apply IH].
    apply (Permutation_Forall (Permutation_sym (insertDesc_perm l rest))).
    constructor; [lia|exact Hx].
Qed.

(** [ORDER BY id DESC]: the same rows, by descending identifier. *)
Lemma sorted_rows (rows : list Link.t) :
  descending (fold_right Mem.insertDesc [] rows)
  ∧ Permutation (fold_right Mem.insertDesc [] rows) rows.
Proof.
  induction rows as [|x rows [IH1 IH2]]; simpl; [split; [exact I|reflexivity]|].
  split; [now apply insertDesc_descending|].
  rewrite insertDesc_perm. now constructor.
Qed.

(** On a healthy connection, a GET without [id] hands to [respond] the
    rows of the table, all of them and no other, by descending identifier,
    in whatever order they are stored. *)
Theorem mem_list_is_descending (req : Request.t) (w : Mem.World) :
  Request.HTTPMethod req = "GET" →
  index (Request.QueryStringParameters req) "id" = "" →
  Mem.faults w = [] →
  ∃ links,
    result (handler Mem.backend req) w = respond Mem.backend req (Links links)
    ∧ descending links
    ∧ Permutation links (Mem.rows w).
Proof.
  intros Hm Hq Hf. unfold result.
  rewrite (handler_setupOk Mem.backend req w (setupOk_mem w)), afterSetup_mem.
  unfold dispatch. rewrite Hm. simpl. unfold caseGet. rewrite Hq. simpl.
  unfold bind, call, ret. simpl. unfold Mem.listLinks.
  rewrite storeCall_healthy by assumption. simpl.
  eexists. split; [reflexivity|]. apply sorted_rows.
Qed.

Lemma find_filter_other (rows : list Link.t) (n id : Z) :
  id ≠ n →
  List.find (fun l => Link.ID l =? id)
    (List.filter (fun l => negb (Link.ID l =? n)) rows)
  = List.find (fun l => Link.ID l =? id) rows.
Proof.
  intros Hne. induction rows as [|x rows IH]; simpl; [reflexivity|].
  destruct (Z.eqb_spec (Link.ID x) n) as [E|E]; simpl.
  - destruct (Z.eqb_spec (Link.ID x) id); [congruence|exact IH].
  - destruct (Link.ID x =? id); [reflexivity|exact IH].
Qed.

Lemma find_filter_same (rows : list Link.t) (n : Z) :
  List.find (fun l => Link.ID l =? n)
    (List.filter (fun l => negb (Link.ID l =? n)) rows) = None.
Proof.
  induction rows as [|x rows IH]; simpl; [reflexivity|].
  destruct (Link.ID x =? n) eqn:E; simpl; [exact IH|]. now rewrite E.
Qed.

Lemma filter_absent (rows : list Link.t) (n : Z) :
  List.find (fun l => Link.ID l =? n) rows = None →
  List.filter (fun l => negb (Link.ID l =? n)) rows = rows.
Proof.
  induction rows as [|x rows IH]; simpl; [reflexivity|].
  destruct (Link.ID x =? n); [discriminate|]. simpl. intros H. now rewrite IH.
Qed.

(** On a healthy connection, a DELETE with an integer [id] is answered 200
    whether or not a row has that identifier; afterwards no row has it, the
    rows under other identifiers are as before, and deleting an identifier
    that is not stored changes nothing. *)
Theorem mem_delete_only_that_id (req : Request.t) (w : Mem.World) (s : string) (n : Z) :
  Request.HTTPMethod req = "DELETE" →
  Request.QueryStringParameters req !! "id" = Some s →
  Atoi s = (n, None) →
  Mem.faults w = [] →
  let after := final (handler Mem.backend req) w in
  result (handler Mem.backend req) w = (Response.mk 200 htmlHeaders "", None)
  ∧ storedRow after n = None
  ∧ (∀ id, id ≠ n → storedRow after id = storedRow w id)
  ∧ (storedRow w n = None → Mem.rows after = Mem.rows w).
Proof.
  intros Hm Hq Ha Hf after. subst after. unfold result, final.
  rewrite (handler_setupOk Mem.backend req w (setupOk_mem w)), afterSetup_mem.
  unfold dispatch. rewrite Hm. simpl. unfold caseDelete, indexOk. rewrite Hq.
  pose proof (Atoi_ok_nonempty s n Ha) as Hne.
  apply String.eqb_neq in Hne. rewrite Hne. simpl. rewrite Ha.
  unfold bind, call, ret. simpl. unfold Mem.deleteLink.
  rewrite storeCall_healthy by assumption. simpl. unfold storedRow. simpl.
  split; [reflexivity|]. split; [apply find_filter_same|].
  split; [intros id Hid; now apply find_filter_other|apply filter_absent].
Qed.

Lemma find_app_fresh (rows : list Link.t) (row : Link.t) (id : Z) :
  List.find (fun l => Link.ID l =? id) (rows ++ [row])
  = match List.find (fun l => Link.ID l =? id) rows with
    | Some l => Some l
    | None => if Link.ID row =? id then Some row else None
    end.
Proof.
  induction rows as [|x rows IH]; simpl; [reflexivity|].
  destruct (Link.ID x =? id); [reflexivity|exact IH].
Qed.

(** On a healthy connection and with a fresh next identifier, a valid
    create appends one row that has that identifier and exactly the
    submitted url and commentary; the row is what a read under that
    identifier finds, it is what goes to [respond], and the rows under
    other identifiers are as before. *)
Theorem mem_create_round_trip (req : Request.t) (w : Mem.World) (formData : Values) :
  Request.HTTPMethod req = "POST" →
  ParseQuery (Request.Body req) = (formData, None) →
  Get formData "url" ≠ "" → Get formData "commentary" ≠ "" →
  Mem.faults w = [] →
  storedRow w (Mem.nextID w) = None →
  let after := final (handler Mem.backend req) w in
  ∃ row,
    Mem.rows after = Mem.rows w ++ [row]
    ∧ Link.ID row = Mem.nextID w
    ∧ Link.Url row = Get formData "url"
    ∧ Link.Commentary row = Get formData "commentary"
    ∧ storedRow after (Mem.nextID w) = Some row
    ∧ result (handler Mem.backend req) w = respond Mem.backend req (OneLink row)
    ∧ ∀ id, id ≠ Mem.nextID w → storedRow after id = storedRow w id.
Proof.
  intros Hm Hq HU HC Hf Hfresh after. subst after. unfold result, final.
  rewrite (handler_setupOk Mem.backend req w (setupOk_mem w)), afterSetup_mem.
  unfold dispatch. rewrite Hm. simpl. unfold casePost. rewrite Hq.
  apply String.eqb_neq in HU, HC. rewrite HU, HC. simpl.
  unfold fetchMetadata, bind, call, ret. simpl.
  assert (Hget : ∀ u, (Mem.get u w).2 = w).
  { intros u. unfold Mem.get. destruct (Mem.page w u) as [[b d]|]; reflexivity. }
  assert (Hdoc : ∀ b, (Mem.newDocumentFromReader b w).2 = w).
  { intros b. unfold Mem.newDocumentFromReader.
    destruct (List.find _ (Mem.web w)) as [[u [b' d]]|]; reflexivity. }
  specialize (Hget (Get formData "url")).
  destruct (Mem.get (Get formData "url") w) as [[body|e] wg]; simpl in *; subst wg.
  1: specialize (Hdoc body);
     destruct (Mem.newDocumentFromReader body w) as [[doc|e] wd]; simpl in *; subst wd.
  all: unfold Mem.createLink; rewrite storeCall_healthy by assumption; simpl.
  all: unfold Mem.getLink, Mem.withRows.
  all: rewrite storeCall_healthy by assumption; simpl.
  all: unfold storedRow in *; rewrite find_app_fresh, Hfresh; simpl.
  all: rewrite Z.eqb_refl; simpl.
  all: eexists; (split; [reflexivity|]); simpl.
  all: rewrite find_app_fresh, Hfresh; simpl; rewrite Z.eqb_refl.
  all: do 5 (split; [reflexivity|]).
  all: intros id Hid; rewrite find_app_fresh; simpl.
  all: destruct (List.find (fun l => Link.ID l =? id) (Mem.rows w)); [reflexivity|].
  all: apply Z.eqb_neq in Hid; rewrite Z.eqb_sym in Hid; now rewrite Hid.
Qed.

(* ===================================================================== *)
(** ** These statements at work *)
(* ===================================================================== *)


(** A store that cannot be opened: the error comes with a bare 500. *)
Lemma handler_status_codes_witness :
  let out := result (handler Outage.noOpen Sample.postEx) Sample.empty in
  out.2 ≠ None ∧ out.1 = plain 500 "".
Proof.
  assert (H : (result (handler Outage.noOpen Sample.postEx) Sample.empty).2 ≠ None)
    by (vm_compute; discriminate).
  split; [exact H|].
  apply (proj2 (handler_status_codes Outage.noOpen Sample.postEx Sample.empty) H).
Defined.

(** DELETE without [id]. *)
Lemma handler_bad_request_bodies_witness :
  let out := result (handler Mem.backend Sample.deleteNoId) Sample.stocked in
  Response.StatusCode out.1 = 400 ∧ out.2 = None ∧ Response.Headers out.1 = ∅.
Proof.
  split; [reflexivity|].
  destruct (handler_bad_request_bodies Mem.backend Sample.deleteNoId Sample.stocked
              eq_refl) as (H1 & H2 & _).
  split; assumption.
Defined.

(** A GET answered in JSON, and a PATCH. *)
Lemma handler_ok_content_type_witness :
  (result (handler Mem.backend Sample.getJson5) Sample.stocked).2 = None
  ∧ (result (handler Mem.backend Sample2.patch5) Sample.stocked).2 = None.
Proof.
  split.
  - apply (handler_ok_content_type Mem.backend Sample.getJson5 Sample.stocked).
    reflexivity.
  - apply (handler_ok_content_type Mem.backend Sample2.patch5 Sample.stocked).
    reflexivity.
Defined.

(** A create: the write is the fifth call, and only the re-read follows. *)
Lemma handler_one_fetch_one_write_witness :
  let tr := trace (handler Mem.backend Sample.postEx) Sample.empty in
  isWrite (nth 4 tr (EvOpen None)) = true ∧ noFetch (skipn 5 tr).
Proof.
  intros tr. split; [reflexivity|].
  apply (proj2 (proj2 (handler_one_fetch_one_write Mem.backend Sample.postEx
                         Sample.empty))
           (firstn 4 tr) (nth 4 tr (EvOpen None)) (skipn 5 tr));
    reflexivity.
Defined.

(** The list of the two-row table, and the delete of row 5. *)
Lemma handler_reads_by_verb_witness :
  let listed := trace (handler Mem.backend Sample.getList) Sample.stocked in
  let deleted := trace (handler Mem.backend Sample.delete5) Sample.stocked in
  ((length (reads listed) ≤ 1)%nat ∧ noWrite listed ∧ noFetch listed)
  ∧ (length (reads deleted) = 0%nat ∧ noFetch deleted).
Proof.
  split.
  - apply (proj1 (proj2 (handler_reads_by_verb Mem.backend Sample.getList
                           Sample.stocked))). reflexivity.
  - apply (proj2 (proj2 (handler_reads_by_verb Mem.backend Sample.delete5
                           Sample.stocked))). reflexivity.
Defined.

(** The write of an update is an [UpdateLink]. *)
Lemma handler_writes_by_verb_witness :
  let tr := trace (handler Mem.backend Sample.putSameUrl5) Sample.stocked in
  let e := nth 3 tr (EvOpen None) in
  In e tr ∧ isWrite e = true ∧ ∃ p r, e = EvUpdateLink p r.
Proof.
  intros tr e.
  assert (Hin : In e tr) by (vm_compute; do 3 right; left; reflexivity).
  split; [exact Hin|]. split; [reflexivity|].
  destruct (handler_writes_by_verb Mem.backend Sample.putSameUrl5 Sample.stocked
              e Hin eq_refl) as [[H _]|[[_ H]|[H _]]].
  - vm_compute in H. discriminate H.
  - exact H.
  - vm_compute in H. discriminate H.
Defined.

(** The page fetched by a create is the one of its [url] field. *)
Lemma handler_fetches_submitted_url_witness :
  let req := Sample.postEx in
  In "https://ex.com" (fetchedUrls (trace (handler Mem.backend req) Sample.empty))
  ∧ "https://ex.com" = Get (ParseQuery (Request.Body req)).1 "url".
Proof.
  intros req.
  assert (Hin : In "https://ex.com"
                  (fetchedUrls (trace (handler Mem.backend req) Sample.empty)))
    by (vm_compute; left; reflexivity).
  split; [exact Hin|].
  apply (handler_fetches_submitted_url Mem.backend req Sample.empty _ Hin).
Defined.

(** A driver that is not there, and a table that cannot be created. *)
Lemma handler_setup_failure_witness :
  result (handler Outage.noOpen Sample.getList) Sample.stocked
  = (plain 500 "", Some "sql: unknown driver")
  ∧ trace (handler Outage.noDDL Sample.delete5) Sample.stocked
    = [EvOpen None; EvExecDDL (Some "database is locked")].
Proof.
  split.
  - apply (proj1 (handler_setup_failure Outage.noOpen Sample.getList Sample.stocked
                    "sql: unknown driver")). reflexivity.
  - apply (proj2 (handler_setup_failure Outage.noDDL Sample.delete5 Sample.stocked
                    "database is locked")); reflexivity.
Defined.

(** PATCH, and a GET spelled in lower case. *)
Lemma handler_unknown_verb_witness :
  result (handler Mem.backend Sample2.patch5) Sample.stocked = (plain 200 "", None)
  ∧ trace (handler Mem.backend Sample2.getLower) Sample.stocked
    = [EvOpen None; EvExecDDL None].
Proof.
  split.
  - apply (handler_unknown_verb Mem.backend Sample2.patch5 Sample.stocked
             (setupOk_mem _)).
    simpl. intros [H|[H|[H|[H|[]]]]]; discriminate H.
  - apply (handler_unknown_verb Mem.backend Sample2.getLower Sample.stocked
             (setupOk_mem _)).
    simpl. intros [H|[H|[H|[H|[]]]]]; discriminate H.
Defined.

(** [GET ?id=abc], [GET ?id=7] on a table without row 7, [GET ?id=5]. *)
Lemma handler_get_single_witness :
  result (handler Mem.backend Sample2.getAbc) Sample.stocked
  = (plain 400 "Invalid link ID", None)
  ∧ result (handler Mem.backend Sample2.get7) Sample.stocked
    = (plain 500 Mem.errNoRows, None)
  ∧ result (handler Mem.backend Sample.getJson5) Sample.stocked
    = respond Mem.backend Sample.getJson5 (OneLink Sample.link5).
Proof.
  pose proof (handler_get_single Mem.backend Sample2.getAbc Sample.stocked "abc"
                eq_refl (setupOk_mem _) eq_refl) as Habc.
  pose proof (handler_get_single Mem.backend Sample2.get7 Sample.stocked "7"
                eq_refl (setupOk_mem _) eq_refl) as H7.
  pose proof (handler_get_single Mem.backend Sample.getJson5 Sample.stocked "5"
                eq_refl (setupOk_mem _) eq_refl) as H5.
  split; [|split].
  - apply Habc; [discriminate|vm_compute; discriminate].
  - destruct H7 as [_ H7]; [discriminate|].
    destruct (H7 7 eq_refl) as (_ & He & _). apply He. reflexivity.
  - destruct H5 as [_ H5]; [discriminate|].
    destruct (H5 5 eq_refl) as (_ & _ & Hok). apply Hok. reflexivity.
Defined.

(** [GET ?id=] lists the table; on a lost connection the error is
    returned next to a bare 500. *)
Lemma handler_get_list_witness :
  trace (handler Mem.backend Sample2.getEmptyId) Sample.stocked
  = [EvOpen None; EvExecDDL None;
     EvListLinks ([Sample.link5; Sample.link0], None)]
  ∧ result (handler Mem.backend Sample2.getListJson) Sample.dropsFirst
    = (plain 500 "", Some Mem.connLost).
Proof.
  split.
  - apply (handler_get_list Mem.backend Sample2.getEmptyId Sample.stocked
             eq_refl (setupOk_mem _) eq_refl).
  - apply (handler_get_list Mem.backend Sample2.getListJson Sample.dropsFirst
             eq_refl (setupOk_mem _) eq_refl). reflexivity.
Defined.

(** A dangling [%] in a create, a semicolon in an update. *)
Lemma handler_malformed_body_witness :
  result (handler Mem.backend Sample2.postBadEscape) Sample.stocked
  = (plain 400 "Invalid request body", None)
  ∧ trace (handler Mem.backend Sample2.putBadEscape5) Sample.stocked
    = [EvOpen None; EvExecDDL None].
Proof.
  split.
  - apply (handler_malformed_body Mem.backend Sample2.postBadEscape Sample.stocked
             (or_introl eq_refl) (setupOk_mem _)). vm_compute. discriminate.
  - apply (handler_malformed_body Mem.backend Sample2.putBadEscape5 Sample.stocked
             (or_intror eq_refl) (setupOk_mem _)). vm_compute. discriminate.
Defined.

(** The create of [https://ex.com]. *)
Lemma handler_create_steps_witness :
  let tr := trace (handler Mem.backend Sample.postEx) Sample.empty in
  ∃ p r, In (EvCreateLink p r) tr
         ∧ CreateLinkParams.Url p = "https://ex.com"
         ∧ CreateLinkParams.Commentary p = "hi".
Proof.
  intros tr.
  destruct (handler_create_steps Mem.backend Sample.postEx Sample.empty
              (ParseQuery (Request.Body Sample.postEx)).1
              eq_refl (setupOk_mem _) eq_refl)
    as (resp & mid & p & r & post & Htr & _ & HU & HC & _).
  - vm_compute. discriminate.
  - vm_compute. discriminate.
  - exists p, r. split; [|split; [exact HU|exact HC]].
    subst tr. rewrite Htr. apply in_or_app. right. apply in_or_app. right.
    left. reflexivity.
Defined.

(** Spec example 2: the page cannot be fetched, and the Link is written
    with no title and no image URL. *)
Lemma handler_create_without_metadata_witness :
  ∃ r, writes (trace (handler Mem.backend Sample2.postDown) Sample.empty)
       = [EvCreateLink
            (CreateLinkParams.mk "https://down.example" "hi"
               NullString.zero NullString.zero) r].
Proof.
  apply (handler_create_without_metadata Mem.backend Sample2.postDown Sample.empty
           (ParseQuery (Request.Body Sample2.postDown)).1
           eq_refl (setupOk_mem _) eq_refl);
    vm_compute; discriminate.
Defined.

(** An update of row 5 to a page that cannot be fetched: one fetch, and
    the title and the image of the row are gone. *)
Lemma handler_update_changed_url_witness :
  let req := Sample2.putDown5 in
  fetchedUrls (trace (handler Mem.backend req) Sample.stocked)
  = ["https://down.example"]
  ∧ storedRow (final (handler Mem.backend req) Sample.stocked) 5
    = Some (Link.mk 5 "https://down.example" "moved" NullString.zero NullString.zero).
Proof.
  intros req. split; [|reflexivity].
  apply (handler_update_changed_url Mem.backend req Sample.stocked Sample.stocked
           (ParseQuery (Request.Body req)).1 Sample.link5
           eq_refl (setupOk_mem _) eq_refl);
    try reflexivity; vm_compute; try lia; discriminate.
Defined.

(** The update of row 5 with its own url: the row read again goes to
    [respond]. *)
Lemma handler_update_ends_witness :
  let req := Sample.putSameUrl5 in
  let p := UpdateLinkParams.mk "https://ex.com" "new note"
             (Link.Title Sample.link5) (Link.ImageUrl Sample.link5) 5 in
  In (EvUpdateLink p None) (trace (handler Mem.backend req) Sample.stocked)
  ∧ ∃ got,
      last (trace (handler Mem.backend req) Sample.stocked)
      = Some (EvGetLink 5 got)
      ∧ result (handler Mem.backend req) Sample.stocked
        = respond Mem.backend req (OneLink got.1).
Proof.
  intros req p.
  assert (Hin : In (EvUpdateLink p None)
                  (trace (handler Mem.backend req) Sample.stocked))
    by (vm_compute; do 3 right; left; reflexivity).
  split; [exact Hin|].
  destruct (proj2 (handler_update_ends Mem.backend req Sample.stocked eq_refl
                     (setupOk_mem _)) p Hin) as (got & Hlast & _ & Hok).
  exists got. split; [exact Hlast|]. apply Hok.
  vm_compute in Hlast. injection Hlast as <-. reflexivity.
Defined.

(** The edit form of row 5, asked for without the [hx-request] header. *)
Lemma handler_edit_form_witness :
  let req := Request.mk "PUT" ∅ (Sample.id "5") "" in
  let out := result (handler Mem.backend req) Sample.stocked in
  out.2 = None
  ∧ trace (handler Mem.backend req) Sample.stocked
    = [EvOpen None; EvExecDDL None; EvGetLink 5 (Sample.link5, None)].
Proof.
  intros req out.
  destruct (handler_edit_form Mem.backend req Sample.stocked
              (ParseQuery (Request.Body req)).1
              eq_refl (setupOk_mem _) eq_refl eq_refl) as (Htr & He & _).
  - vm_compute. discriminate.
  - split; [exact He|exact Htr].
Defined.

(** A root-relative [og:image] is kept as it is; a [twitter:image] keeps
    the blanks around it. *)
Lemma fetchMetadata_image_chain_witness :
  (result (fetchMetadata Mem.backend "https://og.example/item") Sample2.shop).1
  = LinkMetadata.mk "" "/cover.png"
  ∧ (result (fetchMetadata Mem.backend "https://tw.example/item") Sample2.shop).1
    = LinkMetadata.mk "" " https://cdn.example/tw.png "
  ∧ ∃ doc,
      In (EvNewDocument (inl doc))
         (trace (fetchMetadata Mem.backend "https://og.example/item") Sample2.shop)
      ∧ ((Attr (Find doc ogImageSel) "content").2 = true →
         "/cover.png" = (Attr (Find doc ogImageSel) "content").1).
Proof.
  split; [reflexivity|]. split; [reflexivity|].
  destruct (fetchMetadata_image_chain Mem.backend "https://og.example/item"
              Sample2.shop (LinkMetadata.mk "" "/cover.png") eq_refl)
    as (doc & Hin & Hog & _).
  exists doc. split; [exact Hin|exact Hog].
Defined.

(** Rows stored as 5, 9, 0 are listed as 9, 5, 0. *)
Lemma mem_list_is_descending_witness :
  ∃ links,
    result (handler Mem.backend Sample2.getListJson) Sample2.unordered
    = respond Mem.backend Sample2.getListJson (Links links)
    ∧ descending links
    ∧ Permutation links [Sample.link5; Sample2.link9; Sample.link0].
Proof.
  apply (mem_list_is_descending Sample2.getListJson Sample2.unordered); reflexivity.
Defined.

(** Deleting row 7, which is not there, and row 5, which is. *)
Lemma mem_delete_only_that_id_witness :
  Mem.rows (final (handler Mem.backend Sample2.delete7) Sample.stocked)
  = Mem.rows Sample.stocked
  ∧ result (handler Mem.backend Sample2.delete7) Sample.stocked
    = (Response.mk 200 htmlHeaders "", None)
  ∧ storedRow (final (handler Mem.backend Sample.delete5) Sample.stocked) 5 = None
  ∧ storedRow (final (handler Mem.backend Sample.delete5) Sample.stocked) 0
    = Some Sample.link0.
Proof.
  destruct (mem_delete_only_that_id Sample2.delete7 Sample.stocked "7" 7
              eq_refl eq_refl eq_refl eq_refl) as (H1 & _ & _ & H4).
  destruct (mem_delete_only_that_id Sample.delete5 Sample.stocked "5" 5
              eq_refl eq_refl eq_refl eq_refl) as (_ & H2 & H3 & _).
  split; [apply H4; reflexivity|]. split; [exact H1|]. split; [exact H2|].
  rewrite H3; [reflexivity|discriminate].
Defined.

(** A create on the two-row table, whose next identifier is 6. *)
Lemma mem_create_round_trip_witness :
  let after := final (handler Mem.backend Sample.postEx) Sample.stocked in
  ∃ row,
    Mem.rows after = [Sample.link0; Sample.link5; row]
    ∧ Link.ID row = 6
    ∧ Link.Url row = "https://ex.com"
    ∧ Link.Commentary row = "hi"
    ∧ storedRow after 6 = Some row.
Proof.
  intros after.
  destruct (mem_create_round_trip Sample.postEx Sample.stocked
              (ParseQuery (Request.Body Sample.postEx)).1 eq_refl eq_refl)
    as (row & H1 & H2 & H3 & H4 & H5 & _); try reflexivity;
    try (vm_compute; discriminate).
  exists row. repeat split; assumption.
Defined.
